(** * VPC3 SPI memory high level analyzer: a shallow embedding of
      [HighLevelAnalyzer.py] and the properties of its decoder.

    Modelling conventions.
    - A Python [bytes] object is a [list byte]; a [str] is a [string].
    - Time stamps ([frame.start_time], [frame.end_time] and every attribute
      that stores one) are integers counting nanoseconds.  The source turns
      a difference of two time stamps into nanoseconds through a float
      ([delta.__float__() * 1e09]); the embedding takes that conversion to be
      exact, so rounding of the float is outside the model.  The int [0] the
      source stores as "no reference yet" is the integer [0] here, as in
      [calc_delta]'s test [timestampStart == 0].
    - The three [NumberSetting] thresholds are integers (nanoseconds).
    - The decoder object is a record of optional attributes: [None] is an
      attribute that was never assigned, and reading it raises
      [AttributeError].  Mutations made before an exception is raised
      persist, as in Python. *)

From Stdlib Require Import Strings.String Strings.Ascii Strings.Byte.
From Stdlib Require Import ZArith List Bool Lia.
From Stdlib Require HexString.
Import ListNotations.

Local Open Scope string_scope.
Local Open Scope list_scope.
Local Open Scope Z_scope.

(** ** Values *)

Definition bytes := list byte.

Definition bytes_eqb (a b : bytes) : bool :=
  if list_eq_dec Byte.byte_eq_dec a b then true else false.

(** [int.from_bytes(b, 'big')] *)
Definition int_from_bytes_big (b : bytes) : Z :=
  fold_left (fun acc x => acc * 256 + Z.of_N (Byte.to_N x)) b 0.

(** [hex(n)] *)
Definition hex (n : Z) : string := HexString.of_Z n.

Inductive exn : Type :=
| AttributeError (attr : string)
| KeyError
| TypeError
| ValueError.

(** ** [int(s, 0)]: the literal forms Python accepts with base 0, over
    ASCII: optional surrounding white space, an optional sign, a [0x],
    [0o] or [0b] prefix or a decimal literal (a decimal literal that starts
    with [0] must be zero), single underscores between digits. *)

Definition is_space (c : ascii) : bool :=
  let n := N_of_ascii c in
  (N.eqb n 32 || (N.leb 9 n && N.leb n 13))%bool.

Fixpoint lstrip (s : string) : string :=
  match s with
  | String c r => if is_space c then lstrip r else s
  | EmptyString => EmptyString
  end.

Fixpoint rstrip (s : string) : string :=
  match s with
  | String c r =>
      match rstrip r with
      | EmptyString => if is_space c then EmptyString else String c EmptyString
      | r' => String c r'
      end
  | EmptyString => EmptyString
  end.

Definition digit_val (c : ascii) : option Z :=
  let n := Z.of_N (N_of_ascii c) in
  if (48 <=? n) && (n <=? 57) then Some (n - 48)
  else if (97 <=? n) && (n <=? 122) then Some (n - 87)
  else if (65 <=? n) && (n <=? 90) then Some (n - 55)
  else None.

(** [prev] tells what the previous character was: [None] at the start of
    the digits, [Some true] after an underscore, [Some false] after a digit. *)
Fixpoint parse_digits (base : Z) (s : string) (prev : option bool) (acc : Z)
  : option Z :=
  match s with
  | EmptyString =>
      match prev with
      | Some false => Some acc
      | _ => None
      end
  | String c r =>
      if Ascii.eqb c "_" then
        match prev with
        | Some false => parse_digits base r (Some true) acc
        | _ => None
        end
      else
        match digit_val c with
        | Some d =>
            if d <? base then parse_digits base r (Some false) (acc * base + d)
            else None
        | None => None
        end
  end.

Definition skip_underscore (s : string) : string :=
  match s with
  | String c r => if Ascii.eqb c "_" then r else s
  | EmptyString => s
  end.

Definition parse_unsigned (s : string) : option Z :=
  match s with
  | String "0" (String c r) =>
      if Ascii.eqb c "x" || Ascii.eqb c "X" then
        parse_digits 16 (skip_underscore r) None 0
      else if Ascii.eqb c "o" || Ascii.eqb c "O" then
        parse_digits 8 (skip_underscore r) None 0
      else if Ascii.eqb c "b" || Ascii.eqb c "B" then
        parse_digits 2 (skip_underscore r) None 0
      else
        match parse_digits 10 s None 0 with
        | Some 0 => Some 0
        | _ => None
        end
  | _ => parse_digits 10 s None 0
  end.

Definition int_base0 (s : string) : exn + Z :=
  let body := rstrip (lstrip s) in
  let '(neg, rest) :=
    match body with
    | String "-" r => (true, r)
    | String "+" r => (false, r)
    | _ => (false, body)
    end in
  match parse_unsigned rest with
  | Some n => inr (if neg : bool then - n else n)
  | None => inl ValueError
  end.

(** ** Module constants *)

Definition STATE_START : Z := 0.
Definition STATE_CMD : Z := 1.
Definition STATE_ADDR_H : Z := 2.
Definition STATE_ADDR_L : Z := 3.
Definition STATE_DATA : Z := 4.
Definition STATE_NO_DATA : Z := 5.

Definition SPI_MEMORY_CMD_READ_BYTE : bytes := [x13].
Definition SPI_MEMORY_CMD_READ_ARRAY : bytes := [x03].
Definition SPI_MEMORY_CMD_WRITE_BYTE : bytes := [x12].
Definition SPI_MEMORY_CMD_WRITE_ARRAY : bytes := [x02].

(** One row of [frame_config]; the [IDX_*] constants of the source are the
    projections. *)
Record config_row := mkRow {
  IDX_CMD_NAME : string;
  IDX_NEXT_STATE : Z;
  IDX_LAST_STATE : Z;
  IDX_FILTER : string;
  IDX_DATA_LINE : string
}.

(** The dict keeps insertion order, which [filter_strings] depends on. *)
Definition frame_config : list (bytes * config_row) :=
  [ (SPI_MEMORY_CMD_READ_BYTE,
      mkRow "Read Byte" STATE_ADDR_H STATE_DATA "READ_BYTE" "miso");
    (SPI_MEMORY_CMD_READ_ARRAY,
      mkRow "Read Array" STATE_ADDR_H STATE_DATA "READ_ARRAY" "miso");
    (SPI_MEMORY_CMD_WRITE_BYTE,
      mkRow "Write Byte" STATE_ADDR_H STATE_DATA "WRITE_BYTE" "mosi");
    (SPI_MEMORY_CMD_WRITE_ARRAY,
      mkRow "Write Array" STATE_ADDR_H STATE_DATA "WRITE_ARRAY" "mosi") ].

(** [frame_config[command]]: [None] stands for [KeyError]. *)
Fixpoint dict_get {V : Type} (d : list (bytes * V)) (k : bytes) : option V :=
  match d with
  | [] => None
  | (k', v) :: d' => if bytes_eqb k' k then Some v else dict_get d' k
  end.

(** The class attribute [filter_strings], built by the loop of the class
    body. *)
Definition filter_strings : list string :=
  ("no filter" :: map (fun kv => IDX_FILTER (snd kv)) frame_config)
    ++ ["Timing_Violations"] ++ ["Address"].

(** ** Frames *)

(** The frame the SPI analyzer hands to [decode]. *)
Record AnalyzerFrame := mkFrame {
  type : string;
  start_time : Z;
  end_time : Z;
  mosi : bytes;
  miso : bytes
}.

(** [frame.data[line]] *)
Definition frame_data (f : AnalyzerFrame) (line : string) : exn + bytes :=
  if (line =? "mosi")%string then inr (mosi f)
  else if (line =? "miso")%string then inr (miso f)
  else inl KeyError.

(** The data dict of an emitted frame, by result type. *)
Inductive out_data : Type :=
| CommandData (command : string)
| AddressData (address : Z) (addressHex : string)
| DataData (data : bytes)
| ViolationData (delta_ns : Z) (maxTiming : Z).

(** [AnalyzerFrame(type, start, end, data)] as built by the analyzer. *)
Record OutFrame := mkOut {
  out_type : string;
  out_start : Z;
  out_end : Z;
  out_fields : out_data
}.

(** What [decode] hands back: nothing, one frame, or a list of frames. *)
Inductive Ret : Type :=
| RNone
| RFrame (f : OutFrame)
| RList (fs : list OutFrame).

(** ** Settings *)

Record Settings := mkSettings {
  filter_setting : string;
  address_setting : string;
  highlight_cmd_only : string;
  timeCsToFirstByte : Z;
  timelastByteToCs : Z;
  timeByteToByte : Z
}.

(** ** The decoder object *)

Record Self := mkSelf {
  state : option Z;
  last_cs_asserted : option Z;
  last_start_time_byte : option Z;
  last_end_time_byte : option Z;
  last_cs_deasserted : option Z;
  command : option bytes;
  address : option (option Z);
  data : option bytes;
  data_byte_cnt : option Z;
  showInstruction : option Z;
  timingViolation : option string;
  cmd_frame_start : option Z;
  cmd_frame_end : option Z;
  address_frame_start : option Z;
  address_frame_end : option Z;
  data_frame_start : option Z;
  data_frame_end : option Z;
  showInfo : option Z
}.

(** [self.name = v], one function per attribute. *)
Definition set_state (v : Z) (o : Self) : Self :=
  let 'mkSelf _ a2 a3 a4 a5 a6 a7 a8 a9 a10 a11 a12 a13 a14 a15 a16 a17 a18 := o in
  mkSelf (Some v) a2 a3 a4 a5 a6 a7 a8 a9 a10 a11 a12 a13 a14 a15 a16 a17 a18.

Definition set_last_cs_asserted (v : Z) (o : Self) : Self :=
  let 'mkSelf a1 _ a3 a4 a5 a6 a7 a8 a9 a10 a11 a12 a13 a14 a15 a16 a17 a18 := o in
  mkSelf a1 (Some v) a3 a4 a5 a6 a7 a8 a9 a10 a11 a12 a13 a14 a15 a16 a17 a18.

Definition set_last_start_time_byte (v : Z) (o : Self) : Self :=
  let 'mkSelf a1 a2 _ a4 a5 a6 a7 a8 a9 a10 a11 a12 a13 a14 a15 a16 a17 a18 := o in
  mkSelf a1 a2 (Some v) a4 a5 a6 a7 a8 a9 a10 a11 a12 a13 a14 a15 a16 a17 a18.

Definition set_last_end_time_byte (v : Z) (o : Self) : Self :=
  let 'mkSelf a1 a2 a3 _ a5 a6 a7 a8 a9 a10 a11 a12 a13 a14 a15 a16 a17 a18 := o in
  mkSelf a1 a2 a3 (Some v) a5 a6 a7 a8 a9 a10 a11 a12 a13 a14 a15 a16 a17 a18.

Definition set_last_cs_deasserted (v : Z) (o : Self) : Self :=
  let 'mkSelf a1 a2 a3 a4 _ a6 a7 a8 a9 a10 a11 a12 a13 a14 a15 a16 a17 a18 := o in
  mkSelf a1 a2 a3 a4 (Some v) a6 a7 a8 a9 a10 a11 a12 a13 a14 a15 a16 a17 a18.

Definition set_command (v : bytes) (o : Self) : Self :=
  let 'mkSelf a1 a2 a3 a4 a5 _ a7 a8 a9 a10 a11 a12 a13 a14 a15 a16 a17 a18 := o in
  mkSelf a1 a2 a3 a4 a5 (Some v) a7 a8 a9 a10 a11 a12 a13 a14 a15 a16 a17 a18.

Definition set_address (v : option Z) (o : Self) : Self :=
  let 'mkSelf a1 a2 a3 a4 a5 a6 _ a8 a9 a10 a11 a12 a13 a14 a15 a16 a17 a18 := o in
  mkSelf a1 a2 a3 a4 a5 a6 (Some v) a8 a9 a10 a11 a12 a13 a14 a15 a16 a17 a18.

Definition set_data (v : bytes) (o : Self) : Self :=
  let 'mkSelf a1 a2 a3 a4 a5 a6 a7 _ a9 a10 a11 a12 a13 a14 a15 a16 a17 a18 := o in
  mkSelf a1 a2 a3 a4 a5 a6 a7 (Some v) a9 a10 a11 a12 a13 a14 a15 a16 a17 a18.

Definition set_data_byte_cnt (v : Z) (o : Self) : Self :=
  let 'mkSelf a1 a2 a3 a4 a5 a6 a7 a8 _ a10 a11 a12 a13 a14 a15 a16 a17 a18 := o in
  mkSelf a1 a2 a3 a4 a5 a6 a7 a8 (Some v) a10 a11 a12 a13 a14 a15 a16 a17 a18.

Definition set_showInstruction (v : Z) (o : Self) : Self :=
  let 'mkSelf a1 a2 a3 a4 a5 a6 a7 a8 a9 _ a11 a12 a13 a14 a15 a16 a17 a18 := o in
  mkSelf a1 a2 a3 a4 a5 a6 a7 a8 a9 (Some v) a11 a12 a13 a14 a15 a16 a17 a18.

Definition set_timingViolation (v : string) (o : Self) : Self :=
  let 'mkSelf a1 a2 a3 a4 a5 a6 a7 a8 a9 a10 _ a12 a13 a14 a15 a16 a17 a18 := o in
  mkSelf a1 a2 a3 a4 a5 a6 a7 a8 a9 a10 (Some v) a12 a13 a14 a15 a16 a17 a18.

Definition set_cmd_frame_start (v : Z) (o : Self) : Self :=
  let 'mkSelf a1 a2 a3 a4 a5 a6 a7 a8 a9 a10 a11 _ a13 a14 a15 a16 a17 a18 := o in
  mkSelf a1 a2 a3 a4 a5 a6 a7 a8 a9 a10 a11 (Some v) a13 a14 a15 a16 a17 a18.

Definition set_cmd_frame_end (v : Z) (o : Self) : Self :=
  let 'mkSelf a1 a2 a3 a4 a5 a6 a7 a8 a9 a10 a11 a12 _ a14 a15 a16 a17 a18 := o in
  mkSelf a1 a2 a3 a4 a5 a6 a7 a8 a9 a10 a11 a12 (Some v) a14 a15 a16 a17 a18.

Definition set_address_frame_start (v : Z) (o : Self) : Self :=
  let 'mkSelf a1 a2 a3 a4 a5 a6 a7 a8 a9 a10 a11 a12 a13 _ a15 a16 a17 a18 := o in
  mkSelf a1 a2 a3 a4 a5 a6 a7 a8 a9 a10 a11 a12 a13 (Some v) a15 a16 a17 a18.

Definition set_address_frame_end (v : Z) (o : Self) : Self :=
  let 'mkSelf a1 a2 a3 a4 a5 a6 a7 a8 a9 a10 a11 a12 a13 a14 _ a16 a17 a18 := o in
  mkSelf a1 a2 a3 a4 a5 a6 a7 a8 a9 a10 a11 a12 a13 a14 (Some v) a16 a17 a18.

Definition set_data_frame_start (v : Z) (o : Self) : Self :=
  let 'mkSelf a1 a2 a3 a4 a5 a6 a7 a8 a9 a10 a11 a12 a13 a14 a15 _ a17 a18 := o in
  mkSelf a1 a2 a3 a4 a5 a6 a7 a8 a9 a10 a11 a12 a13 a14 a15 (Some v) a17 a18.

Definition set_data_frame_end (v : Z) (o : Self) : Self :=
  let 'mkSelf a1 a2 a3 a4 a5 a6 a7 a8 a9 a10 a11 a12 a13 a14 a15 a16 _ a18 := o in
  mkSelf a1 a2 a3 a4 a5 a6 a7 a8 a9 a10 a11 a12 a13 a14 a15 a16 (Some v) a18.

Definition set_showInfo (v : Z) (o : Self) : Self :=
  let 'mkSelf a1 a2 a3 a4 a5 a6 a7 a8 a9 a10 a11 a12 a13 a14 a15 a16 a17 _ := o in
  mkSelf a1 a2 a3 a4 a5 a6 a7 a8 a9 a10 a11 a12 a13 a14 a15 a16 a17 (Some v).

(** The object right after [__init__]: the constructor only prints the
    settings and binds a local name [state], so no attribute is assigned. *)
Definition HLA_init : Self :=
  mkSelf None None None None None None None None None None None None None
         None None None None None.

(** ** Method bodies: object state plus exceptions *)

Definition M (A : Type) : Type := Self -> Self * (exn + A).

Definition ret {A : Type} (a : A) : M A := fun o => (o, inr a).

Definition raise {A : Type} (e : exn) : M A := fun o => (o, inl e).

Definition bind {A B : Type} (m : M A) (k : A -> M B) : M B :=
  fun o =>
    match m o with
    | (o', inr a) => k a o'
    | (o', inl e) => (o', inl e)
    end.

(** [self.name] *)
Definition getattr {A : Type} (name : string) (proj : Self -> option A) : M A :=
  fun o =>
    match proj o with
    | Some v => (o, inr v)
    | None => (o, inl (AttributeError name))
    end.

(** [self.name = v], with [upd] the setter of [name] applied to [v] *)
Definition setattr (upd : Self -> Self) : M unit := fun o => (upd o, inr tt).

Definition lift {A : Type} (r : exn + A) : M A := fun o => (o, r).

Declare Scope py_scope.
Delimit Scope py_scope with py.
Notation "x <- m ;; k" := (bind m (fun x => k))
  (at level 61, m at next level, right associativity) : py_scope.
Notation "m ;; k" := (bind m (fun _ => k))
  (at level 61, right associativity) : py_scope.
Local Open Scope py_scope.

(** ** The helper methods *)

Definition cmd_to_str (command : bytes) : string :=
  match dict_get frame_config command with
  | Some row => IDX_CMD_NAME row
  | None => "Unknown"
  end.

Definition get_next_state (command : bytes) : Z :=
  match dict_get frame_config command with
  | Some row => IDX_NEXT_STATE row
  | None => STATE_NO_DATA
  end.

Definition get_last_state (command : bytes) : Z :=
  match dict_get frame_config command with
  | Some row => IDX_LAST_STATE row
  | None => STATE_NO_DATA
  end.

Definition calc_delta (timestampStart timeStampEnd : Z) : Z :=
  if timestampStart =? 0 then 0 else timeStampEnd - timestampStart.

(** [frame_config[command]] is outside any [try] here. *)
Definition show_cmd (filter_name : string) (command : bytes) : exn + Z :=
  if (filter_name =? "no filter")%string then inr 1
  else if (filter_name =? "Timing_Violations")%string then inr 0
  else
    match dict_get frame_config command with
    | None => inl KeyError
    | Some row =>
        if (filter_name =? IDX_FILTER row)%string then inr 1
        else if (filter_name =? "Address")%string then inr 3
        else inr 2
    end.

Definition indicate_violation
    (maxTiming delta framestart frameend start_time end_time : Z) : M OutFrame :=
  setattr (set_last_end_time_byte end_time) ;;
  setattr (set_last_start_time_byte start_time) ;;
  ret (mkOut "TimingViolation" framestart frameend (ViolationData delta maxTiming)).

(** ** [decode], branch by branch *)

(** [frame.type == 'enable'] *)
Definition decode_enable (frame : AnalyzerFrame) : M Ret :=
  setattr (set_state STATE_CMD) ;;
  setattr (set_last_cs_asserted (start_time frame)) ;;
  setattr (set_last_start_time_byte 0) ;;
  setattr (set_last_end_time_byte 0) ;;
  setattr (set_last_cs_deasserted 0) ;;
  ret RNone.

(** [self.state == STATE_CMD] *)
Definition decode_command (cfg : Settings) (frame : AnalyzerFrame) : M Ret :=
  setattr (set_command (mosi frame)) ;;
  setattr (set_address None) ;;
  setattr (set_data []) ;;
  setattr (set_data_byte_cnt 0) ;;
  setattr (set_showInstruction 1) ;;
  setattr (set_timingViolation "violation") ;;
  setattr (set_last_end_time_byte (end_time frame)) ;;
  setattr (set_last_start_time_byte (start_time frame)) ;;
  setattr (set_cmd_frame_start (start_time frame)) ;;
  setattr (set_cmd_frame_end (end_time frame)) ;;
  cmd <- getattr "command" command ;;
  setattr (set_state (get_next_state cmd)) ;;
  cmd <- getattr "command" command ;;
  shown <- lift (show_cmd (filter_setting cfg) cmd) ;;
  setattr (set_showInstruction shown) ;;
  si <- getattr "showInstruction" showInstruction ;;
  (if si =? 2 then
     setattr (set_showInstruction 0) ;;
     setattr (set_state STATE_NO_DATA)
   else
     si' <- getattr "showInstruction" showInstruction ;;
     if si' =? 3 then setattr (set_showInstruction 0) else ret tt) ;;
  si <- getattr "showInstruction" showInstruction ;;
  if si =? 1 then ret RNone
  else if (filter_setting cfg =? "Timing_Violations")%string then
    cs <- getattr "last_cs_asserted" last_cs_asserted ;;
    bs <- getattr "last_start_time_byte" last_start_time_byte ;;
    let delta := calc_delta cs bs in
    if delta >? timeCsToFirstByte cfg then
      f <- indicate_violation (timeCsToFirstByte cfg) delta cs bs
             (start_time frame) (end_time frame) ;;
      ret (RFrame f)
    else ret RNone
  else ret RNone.

(** The block the address and data branches repeat:
    [if self.filter_setting == 'Timing_Violations': delta = ...;
     if delta > self.timeByteToByte: return self.indicate_violation(...)].
    [Some f] is the early [return] of the frame [f]. *)
Definition byte_to_byte_check (cfg : Settings) (frame : AnalyzerFrame)
  : M (option OutFrame) :=
  if (filter_setting cfg =? "Timing_Violations")%string then
    le <- getattr "last_end_time_byte" last_end_time_byte ;;
    let delta := calc_delta le (start_time frame) in
    if delta >? timeByteToByte cfg then
      le' <- getattr "last_end_time_byte" last_end_time_byte ;;
      f <- indicate_violation (timeByteToByte cfg) delta le' (start_time frame)
             (start_time frame) (end_time frame) ;;
      ret (Some f)
    else ret None
  else ret None.

(** "keep track of the time stamps used for calculating timing violations" *)
Definition keep_time_stamps (frame : AnalyzerFrame) : M Ret :=
  setattr (set_last_end_time_byte (end_time frame)) ;;
  setattr (set_last_start_time_byte (start_time frame)) ;;
  ret RNone.

Definition after_check (cfg : Settings) (frame : AnalyzerFrame) : M Ret :=
  early <- byte_to_byte_check cfg frame ;;
  match early with
  | Some f => ret (RFrame f)
  | None => keep_time_stamps frame
  end.

(** [self.state == STATE_ADDR_H] *)
Definition decode_addr_h (cfg : Settings) (frame : AnalyzerFrame) : M Ret :=
  setattr (set_address_frame_start (start_time frame)) ;;
  setattr (set_state STATE_ADDR_L) ;;
  setattr (set_address (Some (Z.shiftl (int_from_bytes_big (mosi frame)) 8))) ;;
  after_check cfg frame.

(** [self.state == STATE_ADDR_L]; [None | int] is a [TypeError]. *)
Definition decode_addr_l (cfg : Settings) (frame : AnalyzerFrame) : M Ret :=
  a <- getattr "address" address ;;
  match a with
  | None => raise TypeError
  | Some hi =>
      setattr (set_address (Some (Z.lor hi (int_from_bytes_big (mosi frame))))) ;;
      cmd <- getattr "command" command ;;
      setattr (set_state (get_last_state cmd)) ;;
      setattr (set_data_byte_cnt 0) ;;
      setattr (set_address_frame_end (end_time frame)) ;;
      after_check cfg frame
  end.

(** [self.state == STATE_DATA] *)
Definition decode_data (cfg : Settings) (frame : AnalyzerFrame) : M Ret :=
  cnt <- getattr "data_byte_cnt" data_byte_cnt ;;
  (if cnt =? 0 then setattr (set_data_frame_start (start_time frame))
   else ret tt) ;;
  cnt <- getattr "data_byte_cnt" data_byte_cnt ;;
  setattr (set_data_byte_cnt (cnt + 1)) ;;
  d <- getattr "data" data ;;
  cmd <- getattr "command" command ;;
  match dict_get frame_config cmd with
  | None => raise KeyError
  | Some row =>
      b <- lift (frame_data frame (IDX_DATA_LINE row)) ;;
      setattr (set_data (d ++ b)) ;;
      setattr (set_data_frame_end (end_time frame)) ;;
      after_check cfg frame
  end.

(** The computation of [self.showInfo], written twice in the source. *)
Definition eval_showInfo (cfg : Settings) : M unit :=
  if (filter_setting cfg =? "Address")%string then
    wanted <- lift (int_base0 (address_setting cfg)) ;;
    a <- getattr "address" address ;;
    match a with
    | Some got => if wanted =? got then setattr (set_showInfo 1)
                  else setattr (set_showInfo 0)
    | None => setattr (set_showInfo 0)
    end
  else setattr (set_showInfo 1).

Definition command_frame : M OutFrame :=
  cs <- getattr "cmd_frame_start" cmd_frame_start ;;
  ce <- getattr "cmd_frame_end" cmd_frame_end ;;
  cmd <- getattr "command" command ;;
  ret (mkOut "Command" cs ce (CommandData (cmd_to_str cmd))).

(** [hex(None)] is a [TypeError]. *)
Definition address_frame : M OutFrame :=
  s <- getattr "address_frame_start" address_frame_start ;;
  e <- getattr "address_frame_end" address_frame_end ;;
  a <- getattr "address" address ;;
  match a with
  | Some n => ret (mkOut "Address" s e (AddressData n (hex n)))
  | None => raise TypeError
  end.

Definition data_frame : M OutFrame :=
  s <- getattr "data_frame_start" data_frame_start ;;
  e <- getattr "data_frame_end" data_frame_end ;;
  d <- getattr "data" data ;;
  ret (mkOut "Data" s e (DataData d)).

(** [frame.type == 'disable'] *)
Definition decode_disable (cfg : Settings) (frame : AnalyzerFrame) : M Ret :=
  setattr (set_last_cs_deasserted (start_time frame)) ;;
  if (filter_setting cfg =? "Timing_Violations")%string then
    le <- getattr "last_end_time_byte" last_end_time_byte ;;
    cd <- getattr "last_cs_deasserted" last_cs_deasserted ;;
    let delta := calc_delta le cd in
    if delta >? timelastByteToCs cfg then
      f <- indicate_violation (timelastByteToCs cfg) delta le cd
             (start_time frame) (end_time frame) ;;
      ret (RFrame f)
    else ret RNone
  else
    st <- getattr "state" state ;;
    if st =? STATE_DATA then
      if (highlight_cmd_only cfg =? "yes")%string then
        eval_showInfo cfg ;;
        si <- getattr "showInfo" showInfo ;;
        if si =? 1 then
          c <- command_frame ;;
          ret (RFrame c)
        else ret RNone
      else
        eval_showInfo cfg ;;
        si <- getattr "showInfo" showInfo ;;
        if si =? 1 then
          c <- command_frame ;;
          a <- address_frame ;;
          d <- data_frame ;;
          ret (RList [c; a; d])
        else ret RNone
    else ret RNone.

Definition decode (cfg : Settings) (frame : AnalyzerFrame) : M Ret :=
  if (type frame =? "enable")%string then decode_enable frame
  else if (type frame =? "result")%string then
    st <- getattr "state" state ;;
    if st =? STATE_CMD then decode_command cfg frame
    else if st =? STATE_ADDR_H then decode_addr_h cfg frame
    else if st =? STATE_ADDR_L then decode_addr_l cfg frame
    else if st =? STATE_DATA then decode_data cfg frame
    else ret RNone
  else if (type frame =? "disable")%string then decode_disable cfg frame
  else ret RNone.

(** ** Feeding a capture to the analyzer

    The host calls [decode] once per frame, in order, on one object.  An
    exception that leaves [decode] ends the run. *)
Fixpoint run (cfg : Settings) (frames : list AnalyzerFrame) (o : Self)
  : Self * list Ret * option exn :=
  match frames with
  | [] => (o, [], None)
  | f :: rest =>
      match decode cfg f o with
      | (o', inl e) => (o', [], Some e)
      | (o', inr r) =>
          let '(o'', rs, err) := run cfg rest o' in
          (o'', r :: rs, err)
      end
  end.

Definition run_obj (cfg : Settings) (frames : list AnalyzerFrame) (o : Self) : Self :=
  fst (fst (run cfg frames o)).

(** What the host sees of a run: the returned values and the exception
    that ended it, if any. *)
Definition observed (cfg : Settings) (frames : list AnalyzerFrame) (o : Self)
  : list Ret * option exn :=
  (snd (fst (run cfg frames o)), snd (run cfg frames o)).

(** A capture fed to a newly constructed analyzer. *)
Definition outputs (cfg : Settings) (frames : list AnalyzerFrame)
  : list Ret * option exn :=
  observed cfg frames HLA_init.

(** The three kinds of frame of the SPI analyzer. *)
Definition Enable (t : Z) : AnalyzerFrame := mkFrame "enable" t t [] [].
Definition Result (s e : Z) (mo mi : bytes) : AnalyzerFrame :=
  mkFrame "result" s e mo mi.
Definition Disable (s e : Z) : AnalyzerFrame := mkFrame "disable" s e [] [].



(** * Properties *)

Lemma dict_get_frame_config (cmd : bytes) (row : config_row) :
  dict_get frame_config cmd = Some row ->
  (cmd = SPI_MEMORY_CMD_READ_BYTE /\
     row = mkRow "Read Byte" STATE_ADDR_H STATE_DATA "READ_BYTE" "miso") \/
  (cmd = SPI_MEMORY_CMD_READ_ARRAY /\
     row = mkRow "Read Array" STATE_ADDR_H STATE_DATA "READ_ARRAY" "miso") \/
  (cmd = SPI_MEMORY_CMD_WRITE_BYTE /\
     row = mkRow "Write Byte" STATE_ADDR_H STATE_DATA "WRITE_BYTE" "mosi") \/
  (cmd = SPI_MEMORY_CMD_WRITE_ARRAY /\
     row = mkRow "Write Array" STATE_ADDR_H STATE_DATA "WRITE_ARRAY" "mosi").
Proof.
  unfold frame_config, dict_get, bytes_eqb.
  repeat match goal with
         | |- context [list_eq_dec ?d ?a ?b] =>
             destruct (list_eq_dec d a b) as [<- | _]
         end; intros H; inversion H; subst; auto 6.
Qed.

(** ** Reasoning about one call of [decode] *)

#[local] Arguments Z.shiftl : simpl never.
#[local] Arguments Z.lor : simpl never.
#[local] Arguments Z.add : simpl never.
#[local] Arguments Z.sub : simpl never.
#[local] Arguments Z.gtb : simpl never.
#[local] Arguments hex : simpl never.
#[local] Arguments int_from_bytes_big : simpl never.
#[local] Arguments int_base0 : simpl never.
#[local] Arguments calc_delta : simpl never.

Ltac unfold_decode :=
  unfold decode, decode_enable, decode_command, decode_addr_h, decode_addr_l,
    decode_data, decode_disable, after_check, byte_to_byte_check,
    keep_time_stamps, eval_showInfo, command_frame, address_frame, data_frame,
    indicate_violation, bind, ret, raise, getattr, setattr, lift.

(** Updates nest as a call proceeds; this turns the object back into one
    record of attribute values. *)
Ltac flatten_obj :=
  cbv beta iota delta
    [
      set_state set_last_cs_asserted set_last_start_time_byte
      set_last_end_time_byte set_last_cs_deasserted set_command set_address
      set_data set_data_byte_cnt set_showInstruction set_timingViolation
      set_cmd_frame_start set_cmd_frame_end set_address_frame_start
      set_address_frame_end set_data_frame_start set_data_frame_end
      set_showInfo
      state last_cs_asserted last_start_time_byte last_end_time_byte
      last_cs_deasserted command address data data_byte_cnt showInstruction
      timingViolation cmd_frame_start cmd_frame_end address_frame_start
      address_frame_end data_frame_start data_frame_end showInfo
    ].

(** Open the object, the frame and the settings, and push the known
    attribute values into the goal. *)
Ltac open_call o f cfg :=
  destruct o; destruct f; destruct cfg; cbn in *; subst; unfold_decode; cbn;
  flatten_obj.

(** The part of a filter setting the branches of [decode] look at. *)
Definition timing_filter (cfg : Settings) : bool :=
  (filter_setting cfg =? "Timing_Violations")%string.

(** The byte of a data frame that the command's data line carries. *)
Definition payload_of (row : config_row) (f : AnalyzerFrame) : bytes :=
  if (IDX_DATA_LINE row =? "mosi")%string then mosi f else miso f.

(** The attributes of a transaction that has reached [STATE_DATA]. *)
Record DataPhase (o : Self) (cmd : bytes) (addr cs ce hs le : Z)
    (payload : bytes) (cnt : Z) (ds de : option Z) : Prop := mkDataPhase {
  dp_state : state o = Some STATE_DATA;
  dp_command : command o = Some cmd;
  dp_address : address o = Some (Some addr);
  dp_cmd_start : cmd_frame_start o = Some cs;
  dp_cmd_end : cmd_frame_end o = Some ce;
  dp_addr_start : address_frame_start o = Some hs;
  dp_addr_end : address_frame_end o = Some le;
  dp_data : data o = Some payload;
  dp_cnt : data_byte_cnt o = Some cnt;
  dp_cnt_nonneg : 0 <= cnt;
  dp_data_start : data_frame_start o = ds;
  dp_data_end : data_frame_end o = de
}.

Lemma decode_data_step cfg f o cmd row addr cs ce hs le payload cnt ds de :
  timing_filter cfg = false ->
  type f = "result" ->
  dict_get frame_config cmd = Some row ->
  DataPhase o cmd addr cs ce hs le payload cnt ds de ->
  snd (decode cfg f o) = inr RNone /\
  DataPhase (fst (decode cfg f o)) cmd addr cs ce hs le
    (payload ++ payload_of row f) (cnt + 1)
    (if cnt =? 0 then Some (start_time f) else ds) (Some (end_time f)).
Proof.
  intros Hf Ht Hrow [].
  unfold timing_filter in Hf. unfold payload_of.
  destruct (dict_get_frame_config _ _ Hrow) as [[-> ->]|[[-> ->]|[[-> ->]|[-> ->]]]];
    clear Hrow; open_call o f cfg;
    destruct (cnt =? 0); cbn; rewrite Hf;
    (split; [reflexivity | constructor; cbn; try reflexivity; lia]).
Qed.

(** ** Runs *)

Lemma run_cons cfg f fs o :
  run cfg (f :: fs) o =
  match snd (decode cfg f o) with
  | inl e => (fst (decode cfg f o), [], Some e)
  | inr r =>
      (run_obj cfg fs (fst (decode cfg f o)),
       r :: fst (observed cfg fs (fst (decode cfg f o))),
       snd (observed cfg fs (fst (decode cfg f o))))
  end.
Proof.
  unfold run_obj, observed. cbn [run fst snd].
  destruct (decode cfg f o) as [o' [e|r]]; cbn [fst snd]; [reflexivity|].
  destruct (run cfg fs o') as [[o2 rs] err]; reflexivity.
Qed.

Lemma observed_app cfg l1 l2 o :
  snd (observed cfg l1 o) = None ->
  observed cfg (l1 ++ l2) o =
  (fst (observed cfg l1 o) ++ fst (observed cfg l2 (run_obj cfg l1 o)),
   snd (observed cfg l2 (run_obj cfg l1 o))).
Proof.
  unfold observed, run_obj. cbn [fst snd].
  revert o; induction l1 as [|f l1 IH]; intros o; cbn [run app fst snd].
  - reflexivity.
  - destruct (decode cfg f o) as [o' [e|r]]; cbn [fst snd]; [discriminate|].
    specialize (IH o').
    destruct (run cfg l1 o') as [[o1 rs1] err1]; cbn [fst snd] in *.
    destruct (run cfg (l1 ++ l2) o') as [[o3 rs3] err3]; cbn [fst snd] in *.
    intros H. specialize (IH H). inversion IH; subst. reflexivity.
Qed.

Definition is_result (f : AnalyzerFrame) : Prop := type f = "result".

(** Where the Data frame starts and ends after the data bytes [fs], when
    [cnt] bytes were counted before them. *)
Fixpoint data_start_after (cnt : Z) (fs : list AnalyzerFrame) (ds : option Z)
  : option Z :=
  match fs with
  | [] => ds
  | f :: rest =>
      data_start_after (cnt + 1) rest
        (if cnt =? 0 then Some (start_time f) else ds)
  end.

Definition data_end_after (fs : list AnalyzerFrame) (de : option Z) : option Z :=
  fold_left (fun _ f => Some (end_time f)) fs de.

Definition payload_after (row : config_row) (fs : list AnalyzerFrame) : bytes :=
  concat (map (payload_of row) fs).

Lemma run_data_bytes cfg row cmd addr cs ce hs le fs :
  timing_filter cfg = false ->
  dict_get frame_config cmd = Some row ->
  Forall is_result fs ->
  forall o payload cnt ds de,
    DataPhase o cmd addr cs ce hs le payload cnt ds de ->
    observed cfg fs o = (repeat RNone (length fs), None) /\
    DataPhase (run_obj cfg fs o) cmd addr cs ce hs le
      (payload ++ payload_after row fs)
      (cnt + Z.of_nat (length fs)) (data_start_after cnt fs ds)
      (data_end_after fs de).
Proof.
  intros Hf Hrow Hfs. induction Hfs as [|f fs Hres _ IH]; intros o payload cnt ds de HD.
  - split; [reflexivity|].
    unfold payload_after; cbn. rewrite app_nil_r, Z.add_0_r. exact HD.
  - destruct (decode_data_step cfg f o _ _ _ _ _ _ _ _ _ _ _ Hf Hres Hrow HD)
      as (Hdec & HD1).
    destruct (IH _ _ _ _ _ HD1) as (Hrun & HD2).
    unfold observed, run_obj in *. rewrite run_cons, Hdec. cbn [fst snd].
    unfold observed, run_obj. split.
    + injection Hrun as -> ->. reflexivity.
    + unfold payload_after in *. cbn [map concat length data_start_after].
      unfold data_end_after in *. cbn [fold_left].
      rewrite app_assoc.
      replace (cnt + Z.of_nat (S (length fs)))
        with (cnt + 1 + Z.of_nat (length fs)) by lia.
      exact HD2.
Qed.

Lemma data_start_after_counted cnt fs ds :
  0 < cnt -> data_start_after cnt fs ds = ds.
Proof.
  revert cnt ds; induction fs as [|f fs IH]; intros cnt ds Hc; cbn; [reflexivity|].
  rewrite IH by lia. destruct (Z.eqb_spec cnt 0); [lia | reflexivity].
Qed.

Lemma data_start_after_first f fs ds :
  data_start_after 0 (f :: fs) ds = Some (start_time f).
Proof. cbn. apply data_start_after_counted. lia. Qed.

Lemma last_nonempty_default {A : Type} (x : A) (l : list A) (d d' : A) :
  last (x :: l) d = last (x :: l) d'.
Proof.
  revert x; induction l as [|y l IH]; intros x; [reflexivity|].
  change (last (y :: l) d = last (y :: l) d'). apply IH.
Qed.

Lemma data_end_after_last f fs de :
  data_end_after (f :: fs) de = Some (end_time (last (f :: fs) f)).
Proof.
  unfold data_end_after. cbn [fold_left]. clear de.
  revert f; induction fs as [|g fs IH]; intros f; [reflexivity|].
  cbn [fold_left]. rewrite IH.
  change (last (f :: g :: fs) f) with (last (g :: fs) f).
  rewrite (last_nonempty_default g fs g f). reflexivity.
Qed.

(** ** A transaction up to the data state *)

(** The filter settings under which [show_cmd] lets a command of the table
    row [row] through to the address and data states: it answers 1 for the
    first two and 3 for ['Address']. *)
Definition shown_at_command (cfg : Settings) (row : config_row) : Prop :=
  filter_setting cfg = "no filter" \/
  filter_setting cfg = IDX_FILTER row \/
  filter_setting cfg = "Address".

Definition decoded_address (hi lo : bytes) : Z :=
  Z.lor (Z.shiftl (int_from_bytes_big hi) 8) (int_from_bytes_big lo).

Lemma shown_not_timing cfg cmd row :
  dict_get frame_config cmd = Some row ->
  shown_at_command cfg row -> timing_filter cfg = false.
Proof.
  intros Hrow Hs. unfold timing_filter.
  destruct (dict_get_frame_config _ _ Hrow) as [[-> ->]|[[-> ->]|[[-> ->]|[-> ->]]]];
    destruct Hs as [-> | [-> | ->]]; reflexivity.
Qed.

Lemma run_to_data_state cfg cmd row o a cs ce mi0 hs he hi mi1 ls le lo mi2 :
  dict_get frame_config cmd = Some row ->
  shown_at_command cfg row ->
  let pre := [Enable a; Result cs ce cmd mi0; Result hs he hi mi1;
              Result ls le lo mi2] in
  observed cfg pre o = ([RNone; RNone; RNone; RNone], None) /\
  DataPhase (run_obj cfg pre o) cmd (decoded_address hi lo) cs ce hs le [] 0
    (data_frame_start o) (data_frame_end o).
Proof.
  intros Hrow Hs. destruct cfg as [flt adr hl t1 t2 t3]. unfold shown_at_command in Hs.
  cbn [filter_setting] in Hs.
  destruct (dict_get_frame_config _ _ Hrow) as [[-> ->]|[[-> ->]|[[-> ->]|[-> ->]]]];
    destruct Hs as [-> | [-> | ->]]; destruct o;
    (split; [reflexivity | constructor; try reflexivity; try lia]).
Qed.

(** ** Chip select deasserted in the data state *)

(** The value [self.showInfo] gets: the address comparison under the
    ['Address'] filter, 1 otherwise. *)
Definition address_shown (cfg : Settings) (addr : Z) : exn + bool :=
  if (filter_setting cfg =? "Address")%string then
    match int_base0 (address_setting cfg) with
    | inl e => inl e
    | inr wanted => inr (wanted =? addr)
    end
  else inr true.

Definition Command_of (cmd : bytes) (cs ce : Z) : OutFrame :=
  mkOut "Command" cs ce (CommandData (cmd_to_str cmd)).
Definition Address_of (addr hs le : Z) : OutFrame :=
  mkOut "Address" hs le (AddressData addr (hex addr)).
Definition Data_of (payload : bytes) (s e : Z) : OutFrame :=
  mkOut "Data" s e (DataData payload).

Definition deassert_result (cfg : Settings) (cmd : bytes) (addr cs ce hs le : Z)
    (payload : bytes) (ds de : option Z) : exn + Ret :=
  match address_shown cfg addr with
  | inl e => inl e
  | inr false => inr RNone
  | inr true =>
      if (highlight_cmd_only cfg =? "yes")%string then
        inr (RFrame (Command_of cmd cs ce))
      else
        match ds, de with
        | Some s, Some e =>
            inr (RList [Command_of cmd cs ce; Address_of addr hs le;
                        Data_of payload s e])
        | None, _ => inl (AttributeError "data_frame_start")
        | Some _, None => inl (AttributeError "data_frame_end")
        end
  end.

Lemma decode_disable_data cfg f o cmd addr cs ce hs le payload cnt ds de :
  timing_filter cfg = false ->
  type f = "disable" ->
  DataPhase o cmd addr cs ce hs le payload cnt ds de ->
  snd (decode cfg f o) = deassert_result cfg cmd addr cs ce hs le payload ds de.
Proof.
  intros Hf Ht []. unfold timing_filter in Hf.
  unfold deassert_result, address_shown.
  open_call o f cfg. rewrite Hf.
  destruct (highlight_cmd_only0 =? "yes")%string,
           (filter_setting0 =? "Address")%string; cbn;
    try (destruct (int_base0 address_setting0) as [e|w]; cbn; [reflexivity|];
         destruct (w =? addr); cbn);
    try reflexivity; destruct ds, de; reflexivity.
Qed.

(** A whole transaction: assert, command, two address bytes, the data
    bytes [fs], deassert. *)
Definition transaction (a cs ce : Z) (cmd mi0 : bytes) (hs he : Z) (hi mi1 : bytes)
    (ls le : Z) (lo mi2 : bytes) (fs : list AnalyzerFrame) (dis : AnalyzerFrame)
  : list AnalyzerFrame :=
  [Enable a; Result cs ce cmd mi0; Result hs he hi mi1; Result ls le lo mi2]
    ++ fs ++ [dis].

Definition finish (quiet : nat) (last : exn + Ret) : list Ret * option exn :=
  match last with
  | inr r => (repeat RNone quiet ++ [r], None)
  | inl e => (repeat RNone quiet, Some e)
  end.

Lemma observed_transaction cfg o cmd row a cs ce mi0 hs he hi mi1 ls le lo mi2 fs dis :
  dict_get frame_config cmd = Some row ->
  shown_at_command cfg row ->
  Forall is_result fs ->
  type dis = "disable" ->
  observed cfg (transaction a cs ce cmd mi0 hs he hi mi1 ls le lo mi2 fs dis) o =
  finish (4 + length fs)
    (deassert_result cfg cmd (decoded_address hi lo) cs ce hs le
       (payload_after row fs)
       (data_start_after 0 fs (data_frame_start o))
       (data_end_after fs (data_frame_end o))).
Proof.
  intros Hrow Hs Hfs Hdis.
  pose proof (shown_not_timing _ _ _ Hrow Hs) as Hf.
  destruct (run_to_data_state cfg cmd row o a cs ce mi0 hs he hi mi1 ls le lo mi2
              Hrow Hs) as (Hrun1 & HD1).
  cbv zeta in Hrun1, HD1.
  destruct (run_data_bytes cfg row cmd _ _ _ _ _ fs Hf Hrow Hfs _ _ _ _ _ HD1)
    as (Hrun2 & HD2).
  pose proof (decode_disable_data cfg dis _ _ _ _ _ _ _ _ _ _ _ Hf Hdis HD2) as Hd.
  unfold transaction.
  rewrite observed_app by (rewrite Hrun1; reflexivity).
  rewrite observed_app by (rewrite Hrun2; reflexivity).
  rewrite Hrun1, Hrun2. cbn [fst snd].
  unfold observed at 1 2. rewrite run_cons, Hd.
  cbn [app] in *.
  destruct (deassert_result _ _ _ _ _ _ _ _ _ _) as [e|r]; cbn [finish fst snd].
  - rewrite app_nil_r. reflexivity.
  - reflexivity.
Qed.

(** ** What one call can return *)

(** Case analysis on the tests and attribute reads of the call at hand. *)
Ltac crunch :=
  repeat (cbn;
          match goal with
          | |- context [if ?b then _ else _] => destruct b eqn:?
          | |- context [match ?x with _ => _ end] => is_var x; destruct x
          | |- context [match show_cmd ?a ?b with _ => _ end] =>
              destruct (show_cmd a b)
          | |- context [match int_base0 ?a with _ => _ end] =>
              destruct (int_base0 a)
          end);
  cbn.

(** The shapes of the value returned under ['no filter'] without
    "mark command only": nothing, or the three protocol frames together. *)
Definition all_or_none (r : exn + Ret) : Prop :=
  match r with
  | inl _ => True
  | inr RNone => True
  | inr (RList [c; a; d]) =>
      out_type c = "Command" /\ out_type a = "Address" /\ out_type d = "Data"
  | inr _ => False
  end.

Lemma no_filter_all_or_none cfg f o :
  filter_setting cfg = "no filter" ->
  highlight_cmd_only cfg = "no" ->
  all_or_none (snd (decode cfg f o)).
Proof.
  intros Hflt Hhl. open_call o f cfg. crunch; auto.
Qed.

(** * The claims *)

(** ** C1 *)

Definition byte_val (b : byte) : Z := Z.of_N (Byte.to_N b).

(** C1.  Assert at 0, a recognized command byte over [10,20], the address
    high byte over [20,30], the address low byte over [30,40], one data byte
    over [40,50], then deassert, on a newly constructed analyzer with
    ['no filter'] and "mark command only" = ['no']: the five calls before
    deassert return nothing and deassert returns exactly the list Command,
    Address, Data, with the Command frame over [10,20], the Address frame
    over [20,40] carrying [(high << 8) | low], and the Data frame over
    [40,50] carrying the byte of the command's data line.  Moreover, under
    these settings any call of [decode], from any object state, returns
    either no frame or the three frames together. *)
Theorem C1_command_address_data
    (cmd : bytes) (row : config_row) (hi lo dmosi dmiso : byte)
    (mi0 mi1 mi2 : bytes) (ts te : Z) (adr : string) (t1 t2 t3 : Z) :
  dict_get frame_config cmd = Some row ->
  let cfg := mkSettings "no filter" adr "no" t1 t2 t3 in
  let addr := Z.lor (Z.shiftl (byte_val hi) 8) (byte_val lo) in
  outputs cfg
    [Enable 0; Result 10 20 cmd mi0; Result 20 30 [hi] mi1;
     Result 30 40 [lo] mi2; Result 40 50 [dmosi] [dmiso]; Disable ts te]
  = ([RNone; RNone; RNone; RNone; RNone;
      RList
        [mkOut "Command" 10 20 (CommandData (IDX_CMD_NAME row));
         mkOut "Address" 20 40 (AddressData addr (hex addr));
         mkOut "Data" 40 50
           (DataData
              [if (IDX_DATA_LINE row =? "mosi")%string then dmosi else dmiso])]],
     None)
  /\ (forall f o, all_or_none (snd (decode cfg f o))).
Proof.
  intros Hrow cfg addr. split.
  - subst cfg addr.
    destruct (dict_get_frame_config _ _ Hrow) as [[-> ->]|[[-> ->]|[[-> ->]|[-> ->]]]];
      reflexivity.
  - intros f o. apply no_filter_all_or_none; reflexivity.
Qed.

Lemma C1_witness :
  dict_get frame_config SPI_MEMORY_CMD_READ_BYTE
    = Some (mkRow "Read Byte" STATE_ADDR_H STATE_DATA "READ_BYTE" "miso") /\
  outputs (mkSettings "no filter" "" "no" 0 0 0)
    [Enable 0; Result 10 20 [x13] [x00]; Result 20 30 [x12] [x00];
     Result 30 40 [x34] [x00]; Result 40 50 [x00] [xab]; Disable 60 60]
  = ([RNone; RNone; RNone; RNone; RNone;
      RList
        [mkOut "Command" 10 20 (CommandData "Read Byte");
         mkOut "Address" 20 40 (AddressData 4660 "0x1234");
         mkOut "Data" 40 50 (DataData [xab])]],
     None).
Proof.
  split; [reflexivity|].
  exact (proj1 (C1_command_address_data SPI_MEMORY_CMD_READ_BYTE
                  (mkRow "Read Byte" STATE_ADDR_H STATE_DATA "READ_BYTE" "miso")
                  x12 x34 x00 xab [x00] [x00] [x00] 60 60 "" 0 0 0 eq_refl)).
Defined.

(** ** C2 *)

(** The frame [indicate_violation] builds for a gap [G] over [[s, e]]
    against the threshold [T]. *)
Definition violation (T G s e : Z) : OutFrame :=
  mkOut "TimingViolation" s e (ViolationData G T).

(** The outcome of one timing check: a frame exactly when [G > T]. *)
Definition checked (T G s e : Z) : exn + Ret :=
  inr (if G >? T then RFrame (violation T G s e) else RNone).







Lemma timing_check_disable cfg f o e :
  filter_setting cfg = "Timing_Violations" ->
  type f = "disable" -> last_end_time_byte o = Some e ->
  snd (decode cfg f o)
  = checked (timelastByteToCs cfg) (calc_delta e (start_time f)) e (start_time f).
Proof.
  intros Hflt Ht He. unfold checked. open_call o f cfg.
  destruct (calc_delta e start_time0 >? timelastByteToCs0); reflexivity.
Qed.




(** ** C3 and C4: a command byte that is not in [frame_config] *)


Lemma cmd_to_str_unknown cmd :
  dict_get frame_config cmd = None -> cmd_to_str cmd = "Unknown".
Proof. intros H. unfold cmd_to_str. rewrite H. reflexivity. Qed.


(** The filters of [filter_strings] other than ['no filter'] and
    ['Timing_Violations']. *)
Definition lookup_filters : list string :=
  ["READ_BYTE"; "READ_ARRAY"; "WRITE_BYTE"; "WRITE_ARRAY"; "Address"].

Lemma lookup_filters_in_choices :
  forall flt, In flt lookup_filters -> In flt filter_strings.
Proof.
  intros flt H. cbn in *. intuition.
Qed.

(** C3.  On a new analyzer with the ['Address'] filter, or any of the four
    command filters, the command byte [0x00], which is not in
    [frame_config], makes [decode] raise [KeyError]: [show_cmd] indexes
    [frame_config] outside any [try].  The state has been set to
    [STATE_NO_DATA] by then and the name resolves to "Unknown", as the
    helpers with a [try] provide. *)
Theorem C3_unknown_command_raises :
  Forall
    (fun flt =>
       let cfg := mkSettings flt "0x10" "no" 0 0 0 in
       let frames := [Enable 0; Result 10 20 [x00] [x00]] in
       outputs cfg frames = ([RNone], Some KeyError) /\
       state (run_obj cfg frames HLA_init) = Some STATE_NO_DATA)
    lookup_filters
  /\ cmd_to_str [x00] = "Unknown"
  /\ dict_get frame_config [x00] = None.
Proof.
  split; [|split; reflexivity].
  repeat constructor.
Qed.

(** The attributes the rest of a transaction depends on once the command
    byte was not recognized. *)
Record NoDataPhase (o : Self) (e : Z) : Prop := mkNoDataPhase {
  nd_state : state o = Some STATE_NO_DATA;
  nd_last_end : last_end_time_byte o = Some e
}.

(** The value of one timing check. *)
Definition check_ret (T G s e : Z) : Ret :=
  if G >? T then RFrame (violation T G s e) else RNone.





(** A byte in [STATE_NO_DATA] matches no branch: nothing changes. *)
Lemma decode_no_data_byte cfg f o e :
  type f = "result" -> NoDataPhase o e ->
  decode cfg f o = (o, inr RNone).
Proof.
  intros Ht [Hs _]. destruct f; cbn in Ht; subst.
  unfold decode, bind, getattr, ret. cbn. rewrite Hs. reflexivity.
Qed.

Lemma run_no_data_bytes cfg fs :
  Forall is_result fs ->
  forall o e, NoDataPhase o e ->
  observed cfg fs o = (repeat RNone (length fs), None) /\
  run_obj cfg fs o = o.
Proof.
  induction 1 as [|f fs Hres _ IH]; intros o e HN.
  - split; reflexivity.
  - destruct (IH o e HN) as [Hobs Hobj].
    unfold observed, run_obj in *.
    rewrite run_cons, (decode_no_data_byte cfg f o e Hres HN).
    cbn [fst snd]. unfold observed, run_obj.
    injection Hobs as -> ->. rewrite Hobj. split; reflexivity.
Qed.





(** ** C5: a violation frame does not disturb the decoding *)



#[local] Arguments after_check : simpl never.









(** ** C6, C7 and C10: deassert in the data state *)

Lemma cmd_to_str_known cmd row :
  dict_get frame_config cmd = Some row -> cmd_to_str cmd = IDX_CMD_NAME row.
Proof. intros H. unfold cmd_to_str. rewrite H. reflexivity. Qed.


(** C6.  A new analyzer with the ['Address'] filter set to "0x1234" and
    "mark command only" = ['no'] is fed assert, the command byte [0x13], the
    address bytes [0x12] and [0x34], and deassert, with no data byte.  The
    transaction is in [STATE_DATA] at deassert and the setting equals the
    decoded address, yet no frame is returned: building the Data frame reads
    [data_frame_start], which no call has assigned, and [decode] raises
    [AttributeError]. *)
Theorem C6_address_match_without_data_raises :
  let cfg := mkSettings "Address" "0x1234" "no" 0 0 0 in
  let frames := [Enable 0; Result 10 20 [x13] [x00]; Result 20 30 [x12] [x00];
                 Result 30 40 [x34] [x00]] in
  state (run_obj cfg frames HLA_init) = Some STATE_DATA /\
  address (run_obj cfg frames HLA_init) = Some (Some 4660) /\
  int_base0 (address_setting cfg) = inr 4660 /\
  outputs cfg (frames ++ [Disable 60 60])
  = ([RNone; RNone; RNone; RNone], Some (AttributeError "data_frame_start")).
Proof. repeat split. Qed.

(** C7.  A transaction that reaches the data state (a recognized command,
    both address bytes, any number of data bytes) under a filter that shows
    it (['no filter'], the command's own filter, or ['Address'] with a
    setting equal to the decoded address), from any object state: with
    "mark command only" = ['yes'] every call before deassert returns
    nothing, and deassert returns the single Command frame, over the command
    byte, with the command's name. *)
Theorem C7_mark_command_only
    (cfg : Settings) (o : Self) (cmd : bytes) (row : config_row)
    (a cs ce : Z) (mi0 : bytes) (hs he : Z) (hi mi1 : bytes)
    (ls le : Z) (lo mi2 : bytes) (fs : list AnalyzerFrame) (dis : AnalyzerFrame) :
  dict_get frame_config cmd = Some row ->
  shown_at_command cfg row ->
  address_shown cfg (decoded_address hi lo) = inr true ->
  highlight_cmd_only cfg = "yes" ->
  Forall is_result fs ->
  type dis = "disable" ->
  observed cfg (transaction a cs ce cmd mi0 hs he hi mi1 ls le lo mi2 fs dis) o
  = (repeat RNone (4 + length fs)
       ++ [RFrame (mkOut "Command" cs ce (CommandData (IDX_CMD_NAME row)))],
     None).
Proof.
  intros Hrow Hs Haddr Hhl Hfs Hdis.
  rewrite (observed_transaction cfg o cmd row) by assumption.
  unfold deassert_result, Command_of.
  rewrite Haddr, Hhl, (cmd_to_str_known _ _ Hrow). reflexivity.
Qed.

Lemma C7_witness :
  observed (mkSettings "Address" "0x1234" "yes" 0 0 0)
    (transaction 0 10 20 [x12] [x00] 20 30 [x12] [x00] 30 40 [x34] [x00]
       [Result 40 50 [xab] [x00]; Result 50 60 [xcd] [x00]] (Disable 70 70))
    HLA_init
  = ([RNone; RNone; RNone; RNone; RNone; RNone;
      RFrame (mkOut "Command" 10 20 (CommandData "Write Byte"))], None).
Proof.
  exact (C7_mark_command_only (mkSettings "Address" "0x1234" "yes" 0 0 0)
           HLA_init [x12]
           (mkRow "Write Byte" STATE_ADDR_H STATE_DATA "WRITE_BYTE" "mosi")
           0 10 20 [x00] 20 30 [x12] [x00] 30 40 [x34] [x00]
           [Result 40 50 [xab] [x00]; Result 50 60 [xcd] [x00]] (Disable 70 70)
           eq_refl (or_intror (or_intror eq_refl)) eq_refl eq_refl
           (Forall_cons (Result 40 50 [xab] [x00])
              (eq_refl : is_result (Result 40 50 [xab] [x00]))
              (Forall_cons (Result 50 60 [xcd] [x00])
                 (eq_refl : is_result (Result 50 60 [xcd] [x00]))
                 (Forall_nil _)))
           eq_refl).
Defined.

(** C10.  A recognized command and both address bytes, then deassert with
    no data byte, under a filter that shows the transaction and "mark
    command only" = ['no'], from any object state [o]: the four calls before
    deassert return nothing and deassert takes the three-frame path.  The
    Data frame has an empty payload and the start and end that
    [data_frame_start] and [data_frame_end] held in [o], before the
    transaction; when [o] never had them assigned, as on a new analyzer,
    [decode] raises [AttributeError] and nothing is returned. *)
Theorem C10_no_data_byte
    (cfg : Settings) (o : Self) (cmd : bytes) (row : config_row)
    (a cs ce : Z) (mi0 : bytes) (hs he : Z) (hi mi1 : bytes)
    (ls le : Z) (lo mi2 : bytes) (dis : AnalyzerFrame) :
  dict_get frame_config cmd = Some row ->
  shown_at_command cfg row ->
  address_shown cfg (decoded_address hi lo) = inr true ->
  highlight_cmd_only cfg = "no" ->
  type dis = "disable" ->
  observed cfg (transaction a cs ce cmd mi0 hs he hi mi1 ls le lo mi2 [] dis) o
  = match data_frame_start o, data_frame_end o with
    | Some s, Some e =>
        ([RNone; RNone; RNone; RNone;
          RList [mkOut "Command" cs ce (CommandData (IDX_CMD_NAME row));
                 Address_of (decoded_address hi lo) hs le;
                 mkOut "Data" s e (DataData [])]], None)
    | None, _ =>
        ([RNone; RNone; RNone; RNone], Some (AttributeError "data_frame_start"))
    | Some _, None =>
        ([RNone; RNone; RNone; RNone], Some (AttributeError "data_frame_end"))
    end
  /\ observed cfg
       (transaction a cs ce cmd mi0 hs he hi mi1 ls le lo mi2 [] dis) HLA_init
     = ([RNone; RNone; RNone; RNone], Some (AttributeError "data_frame_start")).
Proof.
  intros Hrow Hs Haddr Hhl Hdis.
  assert (H : forall o',
    observed cfg (transaction a cs ce cmd mi0 hs he hi mi1 ls le lo mi2 [] dis) o'
    = match data_frame_start o', data_frame_end o' with
      | Some s, Some e =>
          ([RNone; RNone; RNone; RNone;
            RList [mkOut "Command" cs ce (CommandData (IDX_CMD_NAME row));
                   Address_of (decoded_address hi lo) hs le;
                   mkOut "Data" s e (DataData [])]], None)
      | None, _ =>
          ([RNone; RNone; RNone; RNone], Some (AttributeError "data_frame_start"))
      | Some _, None =>
          ([RNone; RNone; RNone; RNone], Some (AttributeError "data_frame_end"))
      end).
  { intros o'.
    rewrite (observed_transaction cfg o' cmd row) by (try assumption; constructor).
    unfold deassert_result, Command_of, Data_of, payload_after.
    rewrite Haddr, Hhl, (cmd_to_str_known _ _ Hrow).
    cbn [String.eqb Ascii.eqb Bool.eqb data_start_after data_end_after fold_left
           map concat length].
    destruct (data_frame_start o'), (data_frame_end o'); reflexivity. }
  split; [apply H | rewrite H; reflexivity].
Qed.

(** Two transactions in a row on a new analyzer: the first has one data
    byte over [40,50]; the second has none, and its Data frame carries the
    first one's time stamps. *)
Lemma C10_witness :
  let cfg := mkSettings "no filter" "" "no" 0 0 0 in
  let first := transaction 0 10 20 [x13] [x00] 20 30 [x12] [x00]
                 30 40 [x34] [x00] [Result 40 50 [x00] [xab]] (Disable 60 60) in
  let o := run_obj cfg first HLA_init in
  data_frame_start o = Some 40 /\ data_frame_end o = Some 50 /\
  observed cfg
    (transaction 100 110 120 [x03] [x00] 120 130 [x00] [x00] 130 140 [x10] [x00]
       [] (Disable 160 160)) o
  = ([RNone; RNone; RNone; RNone;
      RList [mkOut "Command" 110 120 (CommandData "Read Array");
             mkOut "Address" 120 140 (AddressData 16 "0x10");
             mkOut "Data" 40 50 (DataData [])]], None).
Proof.
  intros cfg first o.
  split; [reflexivity|]. split; [reflexivity|].
  exact (proj1 (C10_no_data_byte cfg o [x03]
                  (mkRow "Read Array" STATE_ADDR_H STATE_DATA "READ_ARRAY" "miso")
                  100 110 120 [x00] 120 130 [x00] [x00] 130 140 [x10] [x00]
                  (Disable 160 160)
                  eq_refl (or_introl eq_refl) eq_refl eq_refl eq_refl)).
Defined.

(** ** C8: chip select asserted *)




(** ** C9: the run is a function of the settings and the frames *)






(** * Further properties of the analyzer *)

Definition test_settings : Settings := mkSettings "no filter" "" "no" 0 0 0.

(** ** The command table and the helpers that read it *)

(** X1.  [frame_config] has no duplicate key, so each entry is found under its
    key; a key that is not one of the four single bytes (any other byte,
    the empty bytes, more than one byte) has no entry, and the three helpers
    with a [try] then answer with their defaults instead of raising. *)
Theorem frame_config_lookup (cmd : bytes) :
  (forall row, In (cmd, row) frame_config <-> dict_get frame_config cmd = Some row) /\
  match dict_get frame_config cmd with
  | Some row =>
      cmd_to_str cmd = IDX_CMD_NAME row /\
      get_next_state cmd = STATE_ADDR_H /\
      get_last_state cmd = STATE_DATA /\
      (IDX_DATA_LINE row = "mosi" \/ IDX_DATA_LINE row = "miso") /\
      exists b, cmd = [b]
  | None =>
      ~ In cmd (map fst frame_config) /\
      cmd_to_str cmd = "Unknown" /\
      get_next_state cmd = STATE_NO_DATA /\
      get_last_state cmd = STATE_NO_DATA
  end.
Proof.
  split.
  - intros row. split.
    + cbn. intros [H | [H | [H | [H | []]]]]; inversion H; subst; reflexivity.
    + intros H.
      destruct (dict_get_frame_config _ _ H) as [[-> ->]|[[-> ->]|[[-> ->]|[-> ->]]]];
        cbn; auto 6.
  - destruct (dict_get frame_config cmd) as [row|] eqn:E.
    + unfold cmd_to_str, get_next_state, get_last_state. rewrite E.
      destruct (dict_get_frame_config _ _ E) as [[-> ->]|[[-> ->]|[[-> ->]|[-> ->]]]];
        cbn; repeat split; auto; eexists; reflexivity.
    + unfold cmd_to_str, get_next_state, get_last_state. rewrite E.
      repeat split; try reflexivity.
      cbn. intros [H | [H | [H | [H | []]]]]; subst; discriminate.
Qed.

(** ** The address assembled from two bytes *)

Lemma byte_val_range b : 0 <= byte_val b < 256.
Proof. destruct b; cbv; split; congruence. Qed.

Lemma shiftl_8_lor hi lo :
  0 <= hi -> 0 <= lo < 256 -> Z.lor (Z.shiftl hi 8) lo = hi * 256 + lo.
Proof.
  intros Hhi Hlo. rewrite Z.shiftl_mul_pow2 by lia. change (2 ^ 8) with 256.
  rewrite <- Z.lxor_lor.
  - rewrite <- Z.add_nocarry_lxor; [reflexivity|].
    apply Z.bits_inj'. intros n Hn. rewrite Z.land_spec, Z.bits_0.
    destruct (Z.lt_ge_cases n 8).
    + replace (hi * 256) with (hi * 2 ^ 8) by reflexivity.
      rewrite Z.mul_pow2_bits_low by lia. reflexivity.
    + replace (Z.testbit lo n) with false; [apply andb_false_r|].
      symmetry. destruct (Z.eq_dec lo 0) as [->|]; [apply Z.bits_0|].
      apply Z.bits_above_log2; [lia|].
      assert (Z.log2 lo < 8); [|lia].
      apply Z.log2_lt_pow2; [lia|]. change (2 ^ 8) with 256. lia.
  - apply Z.bits_inj'. intros n Hn. rewrite Z.land_spec, Z.bits_0.
    destruct (Z.lt_ge_cases n 8).
    + replace (hi * 256) with (hi * 2 ^ 8) by reflexivity.
      rewrite Z.mul_pow2_bits_low by lia. reflexivity.
    + replace (Z.testbit lo n) with false; [apply andb_false_r|].
      symmetry. destruct (Z.eq_dec lo 0) as [->|]; [apply Z.bits_0|].
      apply Z.bits_above_log2; [lia|].
      assert (Z.log2 lo < 8); [|lia].
      apply Z.log2_lt_pow2; [lia|]. change (2 ^ 8) with 256. lia.
Qed.

Lemma int_from_bytes_big_one b : int_from_bytes_big [b] = byte_val b.
Proof. reflexivity. Qed.

Lemma decode_addr_h_sets cfg f o :
  type f = "result" -> state o = Some STATE_ADDR_H ->
  state (fst (decode cfg f o)) = Some STATE_ADDR_L /\
  address (fst (decode cfg f o))
  = Some (Some (Z.shiftl (int_from_bytes_big (mosi f)) 8)) /\
  address_frame_start (fst (decode cfg f o)) = Some (start_time f).
Proof.
  intros Ht Hs. open_call o f cfg. crunch; repeat split; reflexivity.
Qed.

Lemma decode_addr_l_sets cfg f o hi :
  type f = "result" -> state o = Some STATE_ADDR_L ->
  address o = Some (Some hi) ->
  address (fst (decode cfg f o))
  = Some (Some (Z.lor hi (int_from_bytes_big (mosi f)))).
Proof.
  intros Ht Hs Ha. open_call o f cfg. crunch; reflexivity.
Qed.

(** X2.  Address round trip.  From [STATE_ADDR_H], two byte frames leave in
    [address] the value [(high << 8) | low] of their MOSI bytes, under every
    filter and whatever else the two calls do (a timing check that raises or
    returns a violation frame included).  For single bytes this is
    [256 * high + low], a 16-bit value whose high and low bytes are the two
    bytes received. *)
Theorem address_round_trip
    (cfg : Settings) (o : Self) (f1 f2 : AnalyzerFrame) (hi lo : byte) :
  type f1 = "result" -> type f2 = "result" ->
  mosi f1 = [hi] -> mosi f2 = [lo] ->
  state o = Some STATE_ADDR_H ->
  let v := byte_val hi * 256 + byte_val lo in
  address (fst (decode cfg f2 (fst (decode cfg f1 o)))) = Some (Some v) /\
  v = decoded_address [hi] [lo] /\
  0 <= v < 65536 /\
  v / 256 = byte_val hi /\
  v mod 256 = byte_val lo.
Proof.
  intros H1 H2 Hhi Hlo Hs v.
  destruct (decode_addr_h_sets cfg f1 o H1 Hs) as (Hs1 & Ha1 & _).
  pose proof (decode_addr_l_sets cfg f2 _ _ H2 Hs1 Ha1) as Ha2.
  pose proof (byte_val_range hi) as Rh. pose proof (byte_val_range lo) as Rl.
  assert (Ev : decoded_address [hi] [lo] = v).
  { unfold decoded_address. rewrite !int_from_bytes_big_one.
    apply shiftl_8_lor; lia. }
  split; [|split; [|split; [|split]]].
  - rewrite Ha2, Hhi, Hlo. fold (decoded_address [hi] [lo]). now rewrite Ev.
  - now rewrite Ev.
  - subst v. lia.
  - subst v. rewrite Z.add_comm, Z.div_add by lia.
    rewrite Z.div_small by lia. reflexivity.
  - subst v. rewrite Z.add_comm, Z.mod_add by lia.
    apply Z.mod_small; lia.
Qed.

Lemma address_round_trip_witness :
  address
    (fst (decode test_settings (Result 30 40 [x34] [x00])
            (fst (decode test_settings (Result 20 30 [x12] [x00])
                    (run_obj test_settings
                       [Enable 0; Result 10 20 [x13] [x00]] HLA_init)))))
  = Some (Some 4660).
Proof.
  exact (proj1 (address_round_trip test_settings
                  (run_obj test_settings [Enable 0; Result 10 20 [x13] [x00]]
                     HLA_init)
                  (Result 20 30 [x12] [x00]) (Result 30 40 [x34] [x00])
                  x12 x34 eq_refl eq_refl eq_refl eq_refl eq_refl)).
Defined.

(** ** How the parse state moves *)

(** Whether a filter setting lets a command of row [row] proceed to the
    address bytes: every setting does except the filter of another
    command. *)
Definition proceeds (flt : string) (row : config_row) : bool :=
  ((flt =? "no filter") || (flt =? "Timing_Violations")
   || (flt =? IDX_FILTER row) || (flt =? "Address"))%string.

Lemma show_cmd_known flt cmd row :
  dict_get frame_config cmd = Some row ->
  exists n, show_cmd flt cmd = inr n /\
            (n = 2 <-> proceeds flt row = false) /\
            (n = 0 \/ n = 1 \/ n = 2 \/ n = 3).
Proof.
  intros H. unfold show_cmd, proceeds. rewrite H.
  destruct (flt =? "no filter")%string; [exists 1; cbn; intuition discriminate|].
  destruct (flt =? "Timing_Violations")%string; [exists 0; cbn; intuition discriminate|].
  destruct (flt =? IDX_FILTER row)%string; [exists 1; cbn; intuition discriminate|].
  destruct (flt =? "Address")%string; [exists 3; cbn; intuition discriminate|].
  exists 2; cbn; intuition.
Qed.

Lemma known_command_states cmd row :
  dict_get frame_config cmd = Some row ->
  get_next_state cmd = STATE_ADDR_H /\ get_last_state cmd = STATE_DATA.
Proof.
  intros H. unfold get_next_state, get_last_state. rewrite H.
  destruct (dict_get_frame_config _ _ H) as [[-> ->]|[[-> ->]|[[-> ->]|[-> ->]]]];
    split; reflexivity.
Qed.

Lemma state_after_command cfg f o row :
  type f = "result" -> state o = Some STATE_CMD ->
  dict_get frame_config (mosi f) = Some row ->
  state (fst (decode cfg f o))
  = Some (if proceeds (filter_setting cfg) row then STATE_ADDR_H else STATE_NO_DATA).
Proof.
  intros Ht Hs Hrow.
  destruct (show_cmd_known (filter_setting cfg) _ _ Hrow) as (n & Hn & H2 & Hcases).
  destruct (known_command_states _ _ Hrow) as [Hnext _].
  destruct o, f, cfg; cbn in *; subst. unfold_decode. cbn -[show_cmd get_next_state].
  rewrite Hn, Hnext. cbn -[show_cmd get_next_state].
  destruct (proceeds filter_setting0 row).
  - assert (n <> 2) by (intros ->; destruct H2 as [H2 _]; specialize (H2 eq_refl); discriminate).
    destruct Hcases as [-> | [-> | [-> | ->]]]; try contradiction; cbn; crunch; reflexivity.
  - destruct H2 as [_ H2]. rewrite (H2 eq_refl). cbn. crunch; reflexivity.
Qed.

Lemma state_after_address_low cfg f o hi cmd :
  type f = "result" -> state o = Some STATE_ADDR_L ->
  address o = Some (Some hi) -> command o = Some cmd ->
  state (fst (decode cfg f o)) = Some (get_last_state cmd).
Proof.
  intros Ht Hs Ha Hc. open_call o f cfg. crunch; reflexivity.
Qed.

Lemma state_after_data cfg f o :
  type f = "result" -> state o = Some STATE_DATA ->
  state (fst (decode cfg f o)) = Some STATE_DATA.
Proof.
  intros Ht Hs. open_call o f cfg. crunch; reflexivity.
Qed.

Lemma byte_in_other_state cfg f o st :
  type f = "result" -> state o = Some st ->
  st <> STATE_CMD -> st <> STATE_ADDR_H -> st <> STATE_ADDR_L -> st <> STATE_DATA ->
  decode cfg f o = (o, inr RNone).
Proof.
  intros Ht Hs H1 H2 H3 H4. destruct f; cbn in Ht; subst.
  unfold decode, bind, getattr, ret. cbn. rewrite Hs.
  destruct (Z.eqb_spec st STATE_CMD); [contradiction|].
  destruct (Z.eqb_spec st STATE_ADDR_H); [contradiction|].
  destruct (Z.eqb_spec st STATE_ADDR_L); [contradiction|].
  destruct (Z.eqb_spec st STATE_DATA); [contradiction|].
  reflexivity.
Qed.

(** X3.  The transitions of the parse state on a byte frame.  From [STATE_CMD]
    a recognized command goes to [STATE_ADDR_H], unless the filter is the
    filter of another command, which sends it to [STATE_NO_DATA];
    [STATE_ADDR_H] goes to [STATE_ADDR_L]; [STATE_ADDR_L] goes to the
    table's last state of the stored command, which is [STATE_DATA] for a
    recognized one; [STATE_DATA] stays; in any other state, [STATE_NO_DATA]
    and [STATE_START] included, the byte changes nothing and returns
    nothing. *)
Theorem parse_state_transitions
    (cfg : Settings) (f : AnalyzerFrame) (o : Self) :
  type f = "result" ->
  (forall row,
      state o = Some STATE_CMD -> dict_get frame_config (mosi f) = Some row ->
      state (fst (decode cfg f o))
      = Some (if proceeds (filter_setting cfg) row
              then STATE_ADDR_H else STATE_NO_DATA)) /\
  (state o = Some STATE_ADDR_H ->
   state (fst (decode cfg f o)) = Some STATE_ADDR_L) /\
  (forall hi cmd row,
      state o = Some STATE_ADDR_L -> address o = Some (Some hi) ->
      command o = Some cmd -> dict_get frame_config cmd = Some row ->
      state (fst (decode cfg f o)) = Some STATE_DATA) /\
  (state o = Some STATE_DATA ->
   state (fst (decode cfg f o)) = Some STATE_DATA) /\
  (forall st,
      state o = Some st ->
      st <> STATE_CMD -> st <> STATE_ADDR_H -> st <> STATE_ADDR_L ->
      st <> STATE_DATA ->
      decode cfg f o = (o, inr RNone)).
Proof.
  intros Ht. repeat split.
  - intros; now apply state_after_command.
  - intros Hs. now destruct (decode_addr_h_sets cfg f o Ht Hs).
  - intros hi cmd row Hs Ha Hc Hrow.
    rewrite (state_after_address_low cfg f o hi cmd Ht Hs Ha Hc).
    destruct (known_command_states _ _ Hrow) as [_ ->]. reflexivity.
  - intros; now apply state_after_data.
  - intros; now apply (byte_in_other_state cfg f o st).
Qed.

Lemma parse_state_transitions_witness :
  type (Result 10 20 [x13] [x00]) = "result" /\
  state (fst (decode (mkSettings "WRITE_BYTE" "" "no" 0 0 0)
                (Result 10 20 [x13] [x00])
                (run_obj (mkSettings "WRITE_BYTE" "" "no" 0 0 0)
                   [Enable 0] HLA_init)))
  = Some STATE_NO_DATA.
Proof.
  split; [reflexivity|].
  exact (proj1 (parse_state_transitions (mkSettings "WRITE_BYTE" "" "no" 0 0 0)
                  (Result 10 20 [x13] [x00])
                  (run_obj (mkSettings "WRITE_BYTE" "" "no" 0 0 0)
                     [Enable 0] HLA_init) eq_refl)
           (mkRow "Read Byte" STATE_ADDR_H STATE_DATA "READ_BYTE" "miso")
           eq_refl eq_refl).
Defined.

(** ** What a call leaves alone *)

(** X4.  A frame whose type is none of ['enable'], ['result'], ['disable'] (the
    SPI analyzer's ['error'] frame, for one) changes nothing and returns
    nothing. *)
Theorem other_frame_types_ignored (cfg : Settings) (f : AnalyzerFrame) (o : Self) :
  type f <> "enable" -> type f <> "result" -> type f <> "disable" ->
  decode cfg f o = (o, inr RNone).
Proof.
  intros H1 H2 H3. unfold decode.
  destruct (String.eqb_spec (type f) "enable"); [contradiction|].
  destruct (String.eqb_spec (type f) "result"); [contradiction|].
  destruct (String.eqb_spec (type f) "disable"); [contradiction|].
  reflexivity.
Qed.

Lemma other_frame_types_ignored_witness :
  decode test_settings (mkFrame "error" 5 5 [] []) HLA_init = (HLA_init, inr RNone).
Proof.
  apply other_frame_types_ignored; discriminate.
Defined.

(** X5.  Deassert does not close the parse: whatever it returns or raises, the
    parse state, the command, the address, the payload, the byte count and
    the six frame time stamps are as before.  Bytes that follow without a
    new assert are decoded in the state the transaction was left in. *)
Theorem deassert_keeps_parse (cfg : Settings) (f : AnalyzerFrame) (o : Self) :
  type f = "disable" ->
  let o' := fst (decode cfg f o) in
  state o' = state o /\ command o' = command o /\ address o' = address o /\
  data o' = data o /\ data_byte_cnt o' = data_byte_cnt o /\
  cmd_frame_start o' = cmd_frame_start o /\ cmd_frame_end o' = cmd_frame_end o /\
  address_frame_start o' = address_frame_start o /\
  address_frame_end o' = address_frame_end o /\
  data_frame_start o' = data_frame_start o /\
  data_frame_end o' = data_frame_end o /\
  last_cs_deasserted o' = Some (start_time f).
Proof.
  intros Ht. open_call o f cfg. crunch; repeat split; reflexivity.
Qed.

Lemma deassert_keeps_parse_witness :
  let cfg := test_settings in
  let o := run_obj cfg [Enable 0; Result 10 20 [x13] [x00];
                        Result 20 30 [x12] [x00]; Result 30 40 [x34] [x00];
                        Result 40 50 [x00] [xab]] HLA_init in
  state (fst (decode cfg (Disable 60 60) o)) = Some STATE_DATA /\
  data (run_obj cfg [Disable 60 60; Result 70 80 [x00] [xcd]] o) = Some [xab; xcd].
Proof.
  intros cfg o. split; [|reflexivity].
  exact (proj1 (deassert_keeps_parse cfg (Disable 60 60) o eq_refl)).
Defined.

(** X6.  In [STATE_DATA] with a recognized command, a byte frame appends the
    bytes of the command's data line (MISO for the read commands, MOSI for
    the write commands) to [data] and counts one more byte, under every
    filter and even when the timing check that follows raises or returns a
    violation frame; the first counted byte sets [data_frame_start], every
    byte sets [data_frame_end]. *)
Theorem data_byte_appended
    (cfg : Settings) (f : AnalyzerFrame) (o : Self)
    (cmd : bytes) (row : config_row) (d : bytes) (cnt : Z) :
  type f = "result" -> state o = Some STATE_DATA ->
  command o = Some cmd -> dict_get frame_config cmd = Some row ->
  data o = Some d -> data_byte_cnt o = Some cnt ->
  let o' := fst (decode cfg f o) in
  data o' = Some (d ++ payload_of row f) /\
  (cmd = SPI_MEMORY_CMD_READ_BYTE \/ cmd = SPI_MEMORY_CMD_READ_ARRAY ->
   payload_of row f = miso f) /\
  (cmd = SPI_MEMORY_CMD_WRITE_BYTE \/ cmd = SPI_MEMORY_CMD_WRITE_ARRAY ->
   payload_of row f = mosi f) /\
  data_byte_cnt o' = Some (cnt + 1) /\
  data_frame_start o' = (if cnt =? 0 then Some (start_time f) else data_frame_start o) /\
  data_frame_end o' = Some (end_time f) /\
  command o' = Some cmd /\ address o' = address o.
Proof.
  intros Ht Hs Hc Hrow Hd Hn. unfold payload_of.
  destruct (dict_get_frame_config _ _ Hrow) as [[-> ->]|[[-> ->]|[[-> ->]|[-> ->]]]];
    clear Hrow; open_call o f cfg;
    destruct (cnt =? 0); crunch; repeat split; try reflexivity;
    intros [H | H]; discriminate.
Qed.

Lemma data_byte_appended_witness :
  let cfg := mkSettings "Timing_Violations" "" "no" 5 5 5 in
  let o := run_obj cfg [Enable 1; Result 2 3 [x03] [x00]; Result 4 5 [x12] [x00];
                        Result 6 7 [x34] [x00]; Result 8 9 [x00] [xab]] HLA_init in
  data (fst (decode cfg (Result 40 50 [x01] [xcd]) o)) = Some ([xab] ++ [xcd]).
Proof.
  intros cfg o.
  exact (proj1 (data_byte_appended cfg (Result 40 50 [x01] [xcd]) o [x03]
                  (mkRow "Read Array" STATE_ADDR_H STATE_DATA "READ_ARRAY" "miso")
                  [xab] 1 eq_refl eq_refl eq_refl eq_refl eq_refl eq_refl)).
Defined.

(** X7.  The payload and the address are touched only in their own states: a
    byte frame outside [STATE_CMD] and [STATE_DATA] leaves [data] as it
    was, and one outside [STATE_CMD], [STATE_ADDR_H] and [STATE_ADDR_L]
    leaves [address] as it was. *)
Theorem payload_and_address_guarded
    (cfg : Settings) (f : AnalyzerFrame) (o : Self) (st : Z) :
  type f = "result" -> state o = Some st ->
  (st <> STATE_CMD -> st <> STATE_DATA -> data (fst (decode cfg f o)) = data o) /\
  (st <> STATE_CMD -> st <> STATE_ADDR_H -> st <> STATE_ADDR_L ->
   address (fst (decode cfg f o)) = address o).
Proof.
  intros Ht Hs. split.
  - intros H1 H4. open_call o f cfg.
    destruct (Z.eqb_spec st STATE_CMD); [contradiction|].
    destruct (Z.eqb_spec st STATE_DATA); [contradiction|].
    crunch; reflexivity.
  - intros H1 H2 H3. open_call o f cfg.
    destruct (Z.eqb_spec st STATE_CMD); [contradiction|].
    destruct (Z.eqb_spec st STATE_ADDR_H); [contradiction|].
    destruct (Z.eqb_spec st STATE_ADDR_L); [contradiction|].
    crunch; reflexivity.
Qed.

Lemma payload_and_address_guarded_witness :
  let o := run_obj test_settings
             [Enable 0; Result 10 20 [x13] [x00]; Result 20 30 [x12] [x00];
              Result 30 40 [x34] [x00]] HLA_init in
  address (fst (decode test_settings (Result 40 50 [x00] [xab]) o))
  = Some (Some 4660).
Proof.
  intros o.
  refine (proj2 (payload_and_address_guarded test_settings
                   (Result 40 50 [x00] [xab]) o STATE_DATA eq_refl eq_refl) _ _ _);
    discriminate.
Defined.

(** ** Frames before the first assert *)

(** X8.  The constructor assigns no attribute ([state = STATE_START] there binds
    a local name), so on a new analyzer a byte or a deassert frame that
    comes before any assert raises [AttributeError], under every setting. *)
Theorem frames_before_first_assert_raise (cfg : Settings) (f : AnalyzerFrame) :
  type f = "result" \/ type f = "disable" ->
  exists attr, snd (decode cfg f HLA_init) = inl (AttributeError attr) /\
               (attr = "state" \/ attr = "last_end_time_byte").
Proof.
  intros [Ht | Ht]; destruct f, cfg; cbn in Ht; subst; unfold_decode; cbn.
  - eexists; split; [reflexivity | auto].
  - crunch; eexists; split; try reflexivity; auto.
Qed.

Lemma frames_before_first_assert_raise_witness :
  exists attr,
    snd (decode test_settings (Result 10 20 [x13] [x00]) HLA_init)
    = inl (AttributeError attr) /\
    (attr = "state" \/ attr = "last_end_time_byte").
Proof.
  exact (frames_before_first_assert_raise test_settings
           (Result 10 20 [x13] [x00]) (or_introl eq_refl)).
Defined.

(** ** Whole transactions *)

Lemma own_filter_not_address cmd row :
  dict_get frame_config cmd = Some row ->
  (IDX_FILTER row =? "Address")%string = false /\
  (IDX_FILTER row =? "no filter")%string = false.
Proof.
  intros H.
  destruct (dict_get_frame_config _ _ H) as [[-> ->]|[[-> ->]|[[-> ->]|[-> ->]]]];
    split; reflexivity.
Qed.

(** X9.  A transaction with a recognized command, both address bytes and at
    least one data byte, under ['no filter'] or the command's own filter and
    "mark command only" = ['no'], from any object state: the calls before
    deassert return nothing, and deassert returns Command, Address, Data.
    The Command frame spans the command byte, the Address frame runs from
    the start of the high byte to the end of the low byte, and the Data
    frame runs from the start of the first data byte to the end of the last
    one and carries, in order, the bytes of the command's data line. *)
Theorem transaction_three_frames
    (cfg : Settings) (o : Self) (cmd : bytes) (row : config_row)
    (a cs ce : Z) (mi0 : bytes) (hs he : Z) (hi mi1 : bytes)
    (ls le : Z) (lo mi2 : bytes)
    (f : AnalyzerFrame) (fs : list AnalyzerFrame) (dis : AnalyzerFrame) :
  dict_get frame_config cmd = Some row ->
  filter_setting cfg = "no filter" \/ filter_setting cfg = IDX_FILTER row ->
  highlight_cmd_only cfg = "no" ->
  Forall is_result (f :: fs) ->
  type dis = "disable" ->
  observed cfg
    (transaction a cs ce cmd mi0 hs he hi mi1 ls le lo mi2 (f :: fs) dis) o
  = (repeat RNone (4 + length (f :: fs))
       ++ [RList [mkOut "Command" cs ce (CommandData (IDX_CMD_NAME row));
                  Address_of (decoded_address hi lo) hs le;
                  mkOut "Data" (start_time f) (end_time (last (f :: fs) f))
                    (DataData (concat (map (payload_of row) (f :: fs))))]],
     None).
Proof.
  intros Hrow Hflt Hhl Hfs Hdis.
  assert (Hs : shown_at_command cfg row)
    by (destruct Hflt; [left | right; left]; assumption).
  rewrite (observed_transaction cfg o cmd row) by assumption.
  rewrite data_start_after_first, data_end_after_last.
  unfold deassert_result, address_shown, Command_of, Data_of, payload_after.
  rewrite Hhl, (cmd_to_str_known _ _ Hrow).
  destruct (own_filter_not_address _ _ Hrow) as [Hna _].
  destruct Hflt as [-> | ->]; [|rewrite Hna]; reflexivity.
Qed.

Lemma transaction_three_frames_witness :
  observed (mkSettings "WRITE_ARRAY" "" "no" 0 0 0)
    (transaction 0 10 20 [x02] [x00] 20 30 [x12] [x00] 30 40 [x34] [x00]
       [Result 40 50 [xab] [x00]; Result 50 60 [xcd] [x00]] (Disable 70 70))
    HLA_init
  = ([RNone; RNone; RNone; RNone; RNone; RNone;
      RList [mkOut "Command" 10 20 (CommandData "Write Array");
             mkOut "Address" 20 40 (AddressData 4660 "0x1234");
             mkOut "Data" 40 60 (DataData [xab; xcd])]], None).
Proof.
  exact (transaction_three_frames (mkSettings "WRITE_ARRAY" "" "no" 0 0 0)
           HLA_init [x02]
           (mkRow "Write Array" STATE_ADDR_H STATE_DATA "WRITE_ARRAY" "mosi")
           0 10 20 [x00] 20 30 [x12] [x00] 30 40 [x34] [x00]
           (Result 40 50 [xab] [x00]) [Result 50 60 [xcd] [x00]] (Disable 70 70)
           eq_refl (or_intror eq_refl) eq_refl
           (Forall_cons (Result 40 50 [xab] [x00])
              (eq_refl : is_result (Result 40 50 [xab] [x00]))
              (Forall_cons (Result 50 60 [xcd] [x00])
                 (eq_refl : is_result (Result 50 60 [xcd] [x00]))
                 (Forall_nil _)))
           eq_refl).
Defined.



(** *** A command hidden by the filter of another command *)

Lemma run_filtered_command cfg o a s e cmd row mi :
  dict_get frame_config cmd = Some row ->
  proceeds (filter_setting cfg) row = false ->
  let pre := [Enable a; Result s e cmd mi] in
  observed cfg pre o = ([RNone; RNone], None) /\
  NoDataPhase (run_obj cfg pre o) e /\
  timing_filter cfg = false.
Proof.
  intros Hrow Hp pre. subst pre.
  destruct (show_cmd_known (filter_setting cfg) _ _ Hrow) as (n & Hn & [_ H2] & _).
  rewrite (H2 Hp) in Hn. clear H2.
  unfold proceeds in Hp. unfold timing_filter.
  destruct (filter_setting cfg =? "Timing_Violations")%string eqn:Htv;
    [rewrite orb_true_r in Hp; discriminate|].
  unfold observed, run_obj.
  destruct cfg as [flt adr hl t1 t2 t3]. cbn [filter_setting] in *.
  destruct o. cbn [run]. unfold_decode. cbn -[show_cmd].
  rewrite Hn. cbn. rewrite Htv.
  split; [reflexivity | split; [constructor; reflexivity | reflexivity]].
Qed.

Lemma decode_disable_quiet cfg f o e :
  timing_filter cfg = false ->
  type f = "disable" -> NoDataPhase o e ->
  snd (decode cfg f o) = inr RNone.
Proof.
  intros Hf Ht [Hs He]. unfold timing_filter in Hf.
  open_call o f cfg. rewrite Hf. reflexivity.
Qed.

(** X12.  Under the filter of another command, a transaction with a recognized
    command is dropped whole: the command byte sends it to [STATE_NO_DATA],
    the bytes that follow are not decoded, and no call returns a frame or
    raises, from any object state. *)
Theorem other_command_filter_suppresses
    (cfg : Settings) (o : Self) (a s e : Z) (cmd mi : bytes) (row : config_row)
    (fs : list AnalyzerFrame) (dis : AnalyzerFrame) :
  dict_get frame_config cmd = Some row ->
  proceeds (filter_setting cfg) row = false ->
  Forall is_result fs ->
  type dis = "disable" ->
  observed cfg ([Enable a; Result s e cmd mi] ++ fs ++ [dis]) o
  = (repeat RNone (2 + length fs + 1), None).
Proof.
  intros Hrow Hp Hfs Hdis.
  destruct (run_filtered_command cfg o a s e cmd row mi Hrow Hp) as (H1 & HN1 & Hf).
  cbv zeta in H1, HN1.
  destruct (run_no_data_bytes cfg fs Hfs _ _ HN1) as [H2 Hobj2].
  pose proof (decode_disable_quiet cfg dis _ e Hf Hdis HN1) as H3.
  rewrite observed_app by (rewrite H1; reflexivity).
  rewrite observed_app by (rewrite H2; reflexivity).
  rewrite H1, H2, Hobj2. cbn [fst snd].
  unfold observed at 1 2. rewrite run_cons, H3. cbn [fst snd app].
  f_equal. f_equal. f_equal.
  rewrite repeat_app. reflexivity.
Qed.

Lemma other_command_filter_suppresses_witness :
  observed (mkSettings "READ_BYTE" "" "no" 0 0 0)
    ([Enable 0; Result 10 20 [x12] [x00]]
       ++ [Result 20 30 [x12] [x00]; Result 30 40 [x34] [x00];
           Result 40 50 [xab] [x00]] ++ [Disable 60 60]) HLA_init
  = ([RNone; RNone; RNone; RNone; RNone; RNone], None).
Proof.
  exact (other_command_filter_suppresses (mkSettings "READ_BYTE" "" "no" 0 0 0)
           HLA_init 0 10 20 [x12] [x00]
           (mkRow "Write Byte" STATE_ADDR_H STATE_DATA "WRITE_BYTE" "mosi")
           [Result 20 30 [x12] [x00]; Result 30 40 [x34] [x00];
            Result 40 50 [xab] [x00]] (Disable 60 60)
           eq_refl eq_refl
           (Forall_cons (Result 20 30 [x12] [x00])
              (eq_refl : is_result (Result 20 30 [x12] [x00]))
              (Forall_cons (Result 30 40 [x34] [x00])
                 (eq_refl : is_result (Result 30 40 [x34] [x00]))
                 (Forall_cons (Result 40 50 [xab] [x00])
                    (eq_refl : is_result (Result 40 50 [xab] [x00]))
                    (Forall_nil _))))
           eq_refl).
Defined.

(** *** Assert followed at once by deassert *)

(** X13.  With no byte between assert and deassert there is no last byte:
    [last_end_time_byte] is the 0 the assert stored, [calc_delta] answers 0,
    and under ['Timing_Violations'] no violation is returned as long as the
    threshold is not negative; under every other filter nothing is returned
    either. *)
Theorem empty_transaction_quiet
    (cfg : Settings) (o : Self) (a : Z) (dis : AnalyzerFrame) :
  0 <= timelastByteToCs cfg ->
  type dis = "disable" ->
  observed cfg [Enable a; dis] o = ([RNone; RNone], None).
Proof.
  intros HT Hdis. unfold observed.
  destruct o, dis, cfg; cbn in *; subst. unfold_decode. cbn.
  destruct (filter_setting0 =? "Timing_Violations")%string; cbn.
  - unfold calc_delta. cbn.
    destruct (Z.gtb_spec 0 timelastByteToCs0); [lia | reflexivity].
  - reflexivity.
Qed.

Lemma empty_transaction_quiet_witness :
  observed (mkSettings "Timing_Violations" "" "no" 0 0 0)
    [Enable 5; Disable 900 900] HLA_init
  = ([RNone; RNone], None).
Proof.
  apply empty_transaction_quiet; [cbn; lia | reflexivity].
Defined.

(** *** A transaction under the timing filter *)

(** The attributes the timing checks of the data bytes depend on. *)
Record TimingPhase (o : Self) (cmd d : bytes) (cnt e : Z) : Prop := mkTimingPhase {
  tp_state : state o = Some STATE_DATA;
  tp_command : command o = Some cmd;
  tp_data : data o = Some d;
  tp_cnt : data_byte_cnt o = Some cnt;
  tp_last_end : last_end_time_byte o = Some e
}.

(** The checks of the data bytes [fs], the first against the byte that
    ended at [prev], each next one against the end of the byte before it. *)
Fixpoint data_checks (T prev : Z) (fs : list AnalyzerFrame) : list Ret :=
  match fs with
  | [] => []
  | f :: rest =>
      check_ret T (calc_delta prev (start_time f)) prev (start_time f)
        :: data_checks T (end_time f) rest
  end.

Definition last_end (prev : Z) (fs : list AnalyzerFrame) : Z :=
  fold_left (fun _ f => end_time f) fs prev.

Lemma timing_data_step cfg f o cmd row d cnt e :
  filter_setting cfg = "Timing_Violations" ->
  type f = "result" ->
  dict_get frame_config cmd = Some row ->
  TimingPhase o cmd d cnt e ->
  snd (decode cfg f o)
  = inr (check_ret (timeByteToByte cfg) (calc_delta e (start_time f))
           e (start_time f)) /\
  TimingPhase (fst (decode cfg f o)) cmd (d ++ payload_of row f) (cnt + 1)
    (end_time f).
Proof.
  intros Hflt Ht Hrow []. unfold check_ret, payload_of.
  destruct (dict_get_frame_config _ _ Hrow) as [[-> ->]|[[-> ->]|[[-> ->]|[-> ->]]]];
    clear Hrow; open_call o f cfg;
    destruct (cnt =? 0); cbn;
    destruct (calc_delta e start_time0 >? timeByteToByte0); cbn;
    (split; [reflexivity | constructor; reflexivity]).
Qed.

Lemma run_timing_data cfg row cmd fs :
  filter_setting cfg = "Timing_Violations" ->
  dict_get frame_config cmd = Some row ->
  Forall is_result fs ->
  forall o d cnt e,
    TimingPhase o cmd d cnt e ->
    observed cfg fs o = (data_checks (timeByteToByte cfg) e fs, None) /\
    TimingPhase (run_obj cfg fs o) cmd (d ++ payload_after row fs)
      (cnt + Z.of_nat (length fs)) (last_end e fs).
Proof.
  intros Hflt Hrow Hfs. induction Hfs as [|f fs Hres _ IH]; intros o d cnt e HT.
  - split; [reflexivity|].
    unfold payload_after; cbn. rewrite app_nil_r, Z.add_0_r. exact HT.
  - destruct (timing_data_step cfg f o cmd row d cnt e Hflt Hres Hrow HT)
      as (Hdec & HT1).
    destruct (IH _ _ _ _ HT1) as (Hrun & HT2).
    unfold observed, run_obj in *. rewrite run_cons, Hdec. cbn [fst snd].
    unfold observed, run_obj. split.
    + injection Hrun as -> ->. reflexivity.
    + unfold payload_after, last_end in *. cbn [map concat length fold_left].
      rewrite app_assoc.
      replace (cnt + Z.of_nat (S (length fs)))
        with (cnt + 1 + Z.of_nat (length fs)) by lia.
      exact HT2.
Qed.

Lemma run_timing_prefix cfg cmd row o a cs ce mi0 hs he hi mi1 ls le lo mi2 :
  filter_setting cfg = "Timing_Violations" ->
  dict_get frame_config cmd = Some row ->
  let pre := [Enable a; Result cs ce cmd mi0; Result hs he hi mi1;
              Result ls le lo mi2] in
  observed cfg pre o
  = ([RNone;
      check_ret (timeCsToFirstByte cfg) (calc_delta a cs) a cs;
      check_ret (timeByteToByte cfg) (calc_delta ce hs) ce hs;
      check_ret (timeByteToByte cfg) (calc_delta he ls) he ls], None) /\
  TimingPhase (run_obj cfg pre o) cmd [] 0 le.
Proof.
  intros Hflt Hrow pre. subst pre.
  destruct cfg as [flt adr hl tcs tlast tbb]. cbn in Hflt. subst flt.
  cbn [timeCsToFirstByte timeByteToByte].
  unfold observed, run_obj, check_ret.
  destruct (dict_get_frame_config _ _ Hrow) as [[-> ->]|[[-> ->]|[[-> ->]|[-> ->]]]];
    clear Hrow; destruct o; cbn [run]; unfold_decode; cbn;
    destruct (calc_delta a cs >? tcs); cbn;
    destruct (calc_delta ce hs >? tbb); cbn;
    destruct (calc_delta he ls >? tbb); cbn;
    (split; [reflexivity | constructor; reflexivity]).
Qed.



(** ** The address filter setting and the text of the Address frame *)

#[local] Arguments Z.mul : simpl never.

Fixpoint no_space (s : string) : bool :=
  match s with
  | EmptyString => true
  | String c r => negb (is_space c) && no_space r
  end.

Lemma lstrip_no_space s : no_space s = true -> lstrip s = s.
Proof.
  destruct s as [|c r]; cbn; [reflexivity|].
  destruct (is_space c); [discriminate | reflexivity].
Qed.

Lemma rstrip_no_space s : no_space s = true -> rstrip s = s.
Proof.
  induction s as [|c r IH]; cbn; [reflexivity|].
  destruct (is_space c); cbn; [discriminate|].
  intros H. rewrite (IH H). destruct r; reflexivity.
Qed.

Lemma no_space_of_pos :
  forall p rest, no_space (HexString.Raw.of_pos p rest) = no_space rest.
Proof.
  fix IH 1. intros p rest.
  do 4 try destruct p as [p|p|]; try reflexivity;
    cbn [HexString.Raw.of_pos]; rewrite IH; reflexivity.
Qed.

Definition starts_with_underscore (s : string) : bool :=
  match s with
  | String c _ => Ascii.eqb c "_"
  | EmptyString => false
  end.

Lemma of_pos_starts_with_digit :
  forall p rest,
    starts_with_underscore rest = false ->
    starts_with_underscore (HexString.Raw.of_pos p rest) = false.
Proof.
  fix IH 1. intros p rest Hr.
  do 4 try destruct p as [p|p|]; try reflexivity;
    cbn [HexString.Raw.of_pos]; apply IH; reflexivity.
Qed.

Lemma skip_underscore_id s :
  starts_with_underscore s = false -> skip_underscore s = s.
Proof.
  destruct s as [|c r]; cbn; [reflexivity|]. intros ->. reflexivity.
Qed.

(** Appending the hex digits of [p] to what was read so far. *)
Definition hex_app (base : N) (p : positive) : N :=
  match base with
  | N0 => Npos p
  | Npos v => Npos (HexString.pos_hex_app v p)
  end.

Lemma parse_digits_digit c d rest prev acc :
  Ascii.eqb c "_" = false -> digit_val c = Some d -> (d <? 16) = true ->
  parse_digits 16 (String c rest) prev acc
  = parse_digits 16 rest (Some false) (acc * 16 + d).
Proof.
  intros Hu Hd Hlt. cbn [parse_digits]. rewrite Hu, Hd, Hlt. reflexivity.
Qed.

Lemma parse_digits_of_pos :
  forall p rest prev base,
    parse_digits 16 (HexString.Raw.of_pos p rest) prev (Z.of_N base)
    = parse_digits 16 rest (Some false) (Z.of_N (hex_app base p)).
Proof.
  fix IH 1. intros p rest prev base.
  do 4 try destruct p as [p|p|];
    cbn [HexString.Raw.of_pos];
    try (rewrite IH);
    (erewrite parse_digits_digit by reflexivity);
    f_equal; destruct base; cbn [Z.of_N hex_app HexString.pos_hex_app];
    match goal with
    | |- context [Z.of_N (N_of_ascii ?c)] =>
        let v := eval compute in (Z.of_N (N_of_ascii c)) in
        change (Z.of_N (N_of_ascii c)) with v
    end; lia.
Qed.

Lemma int_base0_of_pos p : parse_unsigned (HexString.of_pos p) = Some (Zpos p).
Proof.
  unfold HexString.of_pos. cbn [parse_unsigned].
  cbn [Ascii.eqb Bool.eqb orb].
  rewrite skip_underscore_id by (apply of_pos_starts_with_digit; reflexivity).
  change 0 with (Z.of_N 0). rewrite parse_digits_of_pos. reflexivity.
Qed.

Lemma no_space_hex_of_pos p : no_space (HexString.of_pos p) = true.
Proof.
  unfold HexString.of_pos. cbn [no_space]. rewrite no_space_of_pos. reflexivity.
Qed.

(** X15.  [int(hex(n), 0) == n] for every integer, so the text an Address frame
    shows in [addressHex], typed into the address setting of the
    ['Address'] filter, selects the transactions with exactly that
    address. *)
Theorem hex_setting_round_trip (n : Z) :
  int_base0 (hex n) = inr n /\
  (forall cfg got,
      filter_setting cfg = "Address" ->
      address_setting cfg = hex n ->
      address_shown cfg got = inr (n =? got)).
Proof.
  assert (E : int_base0 (hex n) = inr n).
  { unfold int_base0, hex, HexString.of_Z.
    destruct n as [|p|p].
    - reflexivity.
    - rewrite lstrip_no_space, rstrip_no_space by apply no_space_hex_of_pos.
      unfold HexString.of_pos at 1. cbn [Ascii.eqb Bool.eqb].
      fold (HexString.of_pos p). rewrite int_base0_of_pos. reflexivity.
    - assert (Hn : no_space (String "-" (HexString.of_pos p)) = true)
        by (cbn [no_space]; rewrite no_space_hex_of_pos; reflexivity).
      rewrite lstrip_no_space, rstrip_no_space by exact Hn.
      rewrite int_base0_of_pos. reflexivity. }
  split; [exact E|].
  intros cfg got Hflt Hadr. unfold address_shown. rewrite Hflt, Hadr, E.
  reflexivity.
Qed.

Lemma hex_setting_round_trip_witness :
  int_base0 (hex 4660) = inr 4660 /\
  address_shown (mkSettings "Address" "0x1234" "no" 0 0 0) 4660 = inr true.
Proof.
  split.
  - exact (proj1 (hex_setting_round_trip 4660)).
  - exact (proj2 (hex_setting_round_trip 4660)
             (mkSettings "Address" "0x1234" "no" 0 0 0) 4660 eq_refl eq_refl).
Defined.




(** *** No leak from earlier transactions *)

Lemma not_proceeding_cases flt row :
  proceeds flt row = true ->
  (flt =? "Timing_Violations")%string = false ->
  flt = "no filter" \/ flt = IDX_FILTER row \/ flt = "Address".
Proof.
  unfold proceeds. intros H Htv. rewrite Htv, orb_false_r in H.
  destruct (String.eqb_spec flt "no filter"); [auto|].
  destruct (String.eqb_spec flt (IDX_FILTER row)); [auto|].
  destruct (String.eqb_spec flt "Address"); [auto|discriminate].
Qed.

(** X17.  A transaction with a recognized command, both address bytes and at
    least one data byte returns the same values, and ends the same way,
    whatever the analyzer decoded before it: under every filter setting and
    either value of "mark command only", what the host sees does not depend
    on the object state the assert finds. *)
Theorem transaction_independent_of_history
    (cfg : Settings) (o1 o2 : Self) (cmd : bytes) (row : config_row)
    (a cs ce : Z) (mi0 : bytes) (hs he : Z) (hi mi1 : bytes)
    (ls le : Z) (lo mi2 : bytes)
    (f : AnalyzerFrame) (fs : list AnalyzerFrame) (dis : AnalyzerFrame) :
  dict_get frame_config cmd = Some row ->
  Forall is_result (f :: fs) ->
  type dis = "disable" ->
  observed cfg
    (transaction a cs ce cmd mi0 hs he hi mi1 ls le lo mi2 (f :: fs) dis) o1
  = observed cfg
      (transaction a cs ce cmd mi0 hs he hi mi1 ls le lo mi2 (f :: fs) dis) o2.
Proof.
  intros Hrow Hfs Hdis.
  destruct (String.eqb_spec (filter_setting cfg) "Timing_Violations") as [Htv|Htv].
  - assert (E : forall o,
      observed cfg
        (transaction a cs ce cmd mi0 hs he hi mi1 ls le lo mi2 (f :: fs) dis) o
      = ([RNone;
          check_ret (timeCsToFirstByte cfg) (calc_delta a cs) a cs;
          check_ret (timeByteToByte cfg) (calc_delta ce hs) ce hs;
          check_ret (timeByteToByte cfg) (calc_delta he ls) he ls]
           ++ data_checks (timeByteToByte cfg) le (f :: fs)
           ++ [check_ret (timelastByteToCs cfg)
                 (calc_delta (last_end le (f :: fs)) (start_time dis))
                 (last_end le (f :: fs)) (start_time dis)],
         None)).
    { intros o.
      destruct (run_timing_prefix cfg cmd row o a cs ce mi0 hs he hi mi1 ls le lo mi2
                  Htv Hrow) as (H1 & HT1).
      cbv zeta in H1, HT1.
      destruct (run_timing_data cfg row cmd (f :: fs) Htv Hrow Hfs _ _ _ _ HT1)
        as (H2 & HT2).
      pose proof (timing_check_disable cfg dis _ _ Htv Hdis
                    (tp_last_end _ _ _ _ _ HT2)) as H3.
      unfold transaction.
      rewrite observed_app by (rewrite H1; reflexivity).
      rewrite observed_app by (rewrite H2; reflexivity).
      rewrite H1, H2. cbn [fst snd].
      unfold observed at 1 2. rewrite run_cons, H3. reflexivity. }
    rewrite (E o1), (E o2). reflexivity.
  - destruct (proceeds (filter_setting cfg) row) eqn:Hp.
    + assert (Hs : shown_at_command cfg row).
      { apply not_proceeding_cases; [exact Hp|].
        now apply String.eqb_neq. }
      rewrite !(observed_transaction cfg _ cmd row) by assumption.
      rewrite !data_start_after_first, !data_end_after_last. reflexivity.
    + assert (Hall : Forall is_result
                       (Result hs he hi mi1 :: Result ls le lo mi2 :: f :: fs))
        by (repeat constructor; inversion Hfs; assumption).
      assert (E : forall o,
        observed cfg
          ([Enable a; Result cs ce cmd mi0]
             ++ (Result hs he hi mi1 :: Result ls le lo mi2 :: f :: fs) ++ [dis]) o
        = ([RNone; RNone]
             ++ repeat RNone (length (Result hs he hi mi1
                                        :: Result ls le lo mi2 :: f :: fs))
             ++ [RNone], None)).
      { intros o.
        destruct (run_filtered_command cfg o a cs ce cmd row mi0 Hrow Hp)
          as (H1 & HN1 & Hf).
        cbv zeta in H1, HN1.
        destruct (run_no_data_bytes cfg _ Hall _ _ HN1) as [H2 Hobj2].
        pose proof (decode_disable_quiet cfg dis _ ce Hf Hdis HN1) as H3.
        rewrite observed_app by (rewrite H1; reflexivity).
        rewrite observed_app by (rewrite H2; reflexivity).
        rewrite H1, H2, Hobj2. cbn [fst snd].
        unfold observed at 1 2. rewrite run_cons, H3. reflexivity. }
      unfold transaction. cbn [app] in *. rewrite (E o1), (E o2). reflexivity.
Qed.

Lemma transaction_independent_of_history_witness :
  let cfg := test_settings in
  let t := transaction 100 110 120 [x03] [x00] 120 130 [x00] [x00]
             130 140 [x10] [x00] (Result 150 160 [x00] [xee] :: [])
             (Disable 170 170) in
  let used := run_obj cfg
                (transaction 0 10 20 [x12] [x00] 20 30 [x12] [x00]
                   30 40 [x34] [x00] [Result 40 50 [xab] [x00]] (Disable 60 60))
                HLA_init in
  observed cfg t used = observed cfg t HLA_init.
Proof.
  intros cfg t used.
  exact (transaction_independent_of_history cfg used HLA_init [x03]
           (mkRow "Read Array" STATE_ADDR_H STATE_DATA "READ_ARRAY" "miso")
           100 110 120 [x00] 120 130 [x00] [x00] 130 140 [x10] [x00]
           (Result 150 160 [x00] [xee]) [] (Disable 170 170)
           eq_refl
           (Forall_cons (Result 150 160 [x00] [xee])
              (eq_refl : is_result (Result 150 160 [x00] [xee]))
              (Forall_nil _))
           eq_refl).
Defined.
